(** * A shallow embedding of [lambda_function.py]

    The AWS Lambda entry point [lambda_handler] receives an S3 event,
    checks the object's extension, stages the object under [/tmp],
    transcodes it to DASH with [run_ffmpeg_dash], uploads the produced
    files and cleans the staging paths up.

    Modelling choices:
    - Python strings are [string]s (a character is a byte); [str.lower]
      is ASCII lower-casing; [unquote_plus] decodes [+] and [%XX] byte-wise.
    - The inbound event is a JSON value; dict lookups, list indexing and
      the [TypeError]s of other subscripts follow CPython, an exception is
      represented by its [str(e)].
    - The local filesystem is a [gmap] from absolute paths to the kind of
      the entry; the S3 client, the ffmpeg process and the failure of a
      deletion are oracles of an environment record [Env]; every external
      call and every [print] is appended to a trace. *)

From Stdlib Require Import Ascii String.
From stdpp Require Import base gmap strings list pretty.

Open Scope string_scope.
Set Warnings "-register-all".


(* ------------------------------------------------------------------ *)
(** ** String helpers (Python's [str] and [pathlib] operations) *)

Definition ascii_eqb (a b : ascii) : bool := Ascii.eqb a b.

(** [str.split("/")] *)
Fixpoint split_slash (s : string) : list string :=
  match s with
  | EmptyString => [""]
  | String c s' =>
      let rest := split_slash s' in
      if ascii_eqb c "/"%char then "" :: rest
      else match rest with
           | r :: tl => String c r :: tl
           | [] => [String c ""]
           end
  end.

(** [PurePath(key).name]: the last component, after dropping the empty
    components (repeated or trailing slashes) and the [.] components. *)
Definition path_name (key : string) : string :=
  List.last (filter (fun p => negb (String.eqb p "") && negb (String.eqb p "."))
          (split_slash key)) "".

(** [name.rfind(".")] as an option *)
Fixpoint rfind_dot (s : string) : option nat :=
  match s with
  | EmptyString => None
  | String c s' =>
      match rfind_dot s' with
      | Some i => Some (S i)
      | None => if ascii_eqb c "."%char then Some 0 else None
      end
  end.

(** [PurePath.suffix]:
    [i = name.rfind('.'); return name[i:] if 0 < i < len(name) - 1 else ''] *)
Definition path_suffix (key : string) : string :=
  let name := path_name key in
  match rfind_dot name with
  | Some i =>
      if (0 <? i)%nat && (i <? String.length name - 1)%nat
      then substring i (String.length name - i) name else ""
  | None => ""
  end.

(** [PurePath.stem]: [name[:i]] under the same test, else [name] *)
Definition path_stem (key : string) : string :=
  let name := path_name key in
  match rfind_dot name with
  | Some i =>
      if (0 <? i)%nat && (i <? String.length name - 1)%nat
      then substring 0 i name else name
  | None => name
  end.

Definition lower_char (c : ascii) : ascii :=
  let n := Ascii.nat_of_ascii c in
  if (65 <=? n)%nat && (n <=? 90)%nat then Ascii.ascii_of_nat (n + 32) else c.

(** [str.lower()] *)
Fixpoint py_lower (s : string) : string :=
  match s with
  | EmptyString => EmptyString
  | String c s' => String (lower_char c) (py_lower s')
  end.

Definition hex_val (c : ascii) : option nat :=
  let n := Ascii.nat_of_ascii c in
  if (48 <=? n)%nat && (n <=? 57)%nat then Some (n - 48)
  else if (65 <=? n)%nat && (n <=? 70)%nat then Some (n - 55)
  else if (97 <=? n)%nat && (n <=? 102)%nat then Some (n - 87)
  else None.

(** [urllib.parse.unquote]: [%XX] with two hex digits becomes that byte,
    any other [%] is kept. *)
Fixpoint unquote (s : string) : string :=
  match s with
  | EmptyString => EmptyString
  | String c s' =>
      if ascii_eqb c "%"%char then
        match s' with
        | String h1 (String h2 rest) =>
            match hex_val h1, hex_val h2 with
            | Some a, Some b => String (Ascii.ascii_of_nat (16 * a + b)) (unquote rest)
            | _, _ => String c (unquote s')
            end
        | _ => String c (unquote s')
        end
      else String c (unquote s')
  end.

(** [string.replace('+', ' ')] *)
Fixpoint plus_to_space (s : string) : string :=
  match s with
  | EmptyString => EmptyString
  | String c s' =>
      String (if ascii_eqb c "+"%char then " "%char else c) (plus_to_space s')
  end.

Definition unquote_plus_str (s : string) : string := unquote (plus_to_space s).

(** [str(int)] *)
Definition py_str_int (z : Z) : string := pretty z.

(* ------------------------------------------------------------------ *)
(** ** The inbound event: JSON values and Python subscripts *)

(** A dict is the association list of its (distinct) keys. *)
Inductive json :=
| JNull
| JNum (z : Z)
| JStr (s : string)
| JList (l : list json)
| JObj (kvs : list (string * json)).

(** Outcome of a Python computation: a value, or an exception given by
    its [str(e)]. *)
Inductive res (A : Type) :=
| Ok (a : A)
| Exc (msg : string).
Arguments Ok {A} a.
Arguments Exc {A} msg.

Fixpoint assoc (k : string) (kvs : list (string * json)) : option json :=
  match kvs with
  | [] => None
  | (k', v) :: kvs' => if String.eqb k k' then Some v else assoc k kvs'
  end.

(** [j[k]] for a string [k]; [str(KeyError(k))] is [repr(k)]. *)
Definition getitem_str (j : json) (k : string) : res json :=
  match j with
  | JObj kvs =>
      match assoc k kvs with
      | Some v => Ok v
      | None => Exc ("'" +:+ k +:+ "'")
      end
  | JList _ => Exc "list indices must be integers or slices, not str"
  | JStr _ => Exc "string indices must be integers, not 'str'"
  | JNull => Exc "'NoneType' object is not subscriptable"
  | JNum _ => Exc "'int' object is not subscriptable"
  end.

(** [j[0]] *)
Definition getitem_0 (j : json) : res json :=
  match j with
  | JList [] => Exc "list index out of range"
  | JList (x :: _) => Ok x
  | JStr EmptyString => Exc "string index out of range"
  | JStr (String c _) => Ok (JStr (String c EmptyString))
  | JObj _ => Exc "0"
  | JNull => Exc "'NoneType' object is not subscriptable"
  | JNum _ => Exc "'int' object is not subscriptable"
  end.

Definition py_type_name (j : json) : string :=
  match j with
  | JNull => "NoneType" | JNum _ => "int" | JStr _ => "str"
  | JList _ => "list" | JObj _ => "dict"
  end.

(** [unquote_plus(j)]: its first step is [j.replace('+', ' ')]. *)
Definition unquote_plus (j : json) : res string :=
  match j with
  | JStr s => Ok (unquote_plus_str s)
  | _ => Exc ("'" +:+ py_type_name j +:+ "' object has no attribute 'replace'")
  end.

Definition res_bind {A B} (r : res A) (f : A -> res B) : res B :=
  match r with Ok a => f a | Exc m => Exc m end.

(** Lines 113-115:
<<
record = event["Records"][0]
bucket = record["s3"]["bucket"]["name"]
key = unquote_plus(record["s3"]["object"]["key"])
>> *)
Definition parse_record (event : json) : res (json * string) :=
  res_bind (getitem_str event "Records") (fun rs =>
  res_bind (getitem_0 rs) (fun record =>
  res_bind (getitem_str record "s3") (fun s3r =>
  res_bind (getitem_str s3r "bucket") (fun b =>
  res_bind (getitem_str b "name") (fun bucket =>
  res_bind (getitem_str record "s3") (fun s3r' =>
  res_bind (getitem_str s3r' "object") (fun o =>
  res_bind (getitem_str o "key") (fun rawkey =>
  res_bind (unquote_plus rawkey) (fun key =>
  Ok (bucket, key)))))))))).

(* ------------------------------------------------------------------ *)
(** ** Module-level constants *)

(** [ALLOWED_EXTENSIONS], a Python set; its elements in source order. *)
Definition ALLOWED_EXTENSIONS : list string :=
  [".mp4"; ".mkv"; ".mov"; ".avi"; ".webm"].

Definition allowed (ext : string) : bool :=
  existsb (String.eqb ext) ALLOWED_EXTENSIONS.

(** [RESOLUTIONS]: (width, height) *)
Definition RESOLUTIONS : list (Z * Z) :=
  [(1280, 720); (854, 480); (640, 360); (426, 240)]%Z.

(** [AUDIO_BITRATES]: audio bitrate by resolution height *)
Definition AUDIO_BITRATES : gmap Z string :=
  list_to_map [(720, "128k"); (480, "96k"); (360, "64k"); (240, "48k")]%Z.

(** [AUDIO_BITRATES.get(height, d)] *)
Definition AUDIO_BITRATES_get (height : Z) (d : string) : string :=
  default d (AUDIO_BITRATES !! height).

Definition ffmpeg_path : string := "/var/task/bin/ffmpeg".

(** [f"{ALLOWED_EXTENSIONS}"]: the repr of the set, whose iteration order
    ([order]) is fixed by the interpreter's string hashing. *)
Definition set_repr (order : list string) : string :=
  "{" +:+ String.concat ", " (map (fun e => "'" +:+ e +:+ "'") order) +:+ "}".

(* ------------------------------------------------------------------ *)
(** ** The ffmpeg command builder of [run_ffmpeg_dash] (lines 38-91) *)

Definition v_label (idx : nat) : string := "[v" +:+ pretty idx +:+ "]".
Definition a_label (idx : nat) : string := "[a" +:+ pretty idx +:+ "]".

(** Lines 44-49 *)
Definition v_filter (idx : nat) (width height : Z) : string :=
  "[0:v]scale=" +:+ py_str_int width +:+ "x" +:+ py_str_int height
  +:+ ":force_original_aspect_ratio=decrease,"
  +:+ "pad=width=ceil(iw/2)*2:height=ceil(ih/2)*2:x=(ow-iw)/2:y=(oh-ih)/2,"
  +:+ "format=yuv420p,setsar=1" +:+ v_label idx.

(** Line 53 *)
Definition a_filter (idx : nat) : string :=
  "[0:a]aresample=async=1" +:+ a_label idx.

(** Line 57 *)
Definition stream_mapping (idx : nat) : list string :=
  ["-map"; v_label idx; "-map"; a_label idx].

(** Lines 60-69 *)
Definition output_param (idx : nat) (width height : Z) : list string :=
  let i := pretty idx in
  ["-c:v:" +:+ i; "libx264";
   "-crf:" +:+ i; "23";
   "-preset:" +:+ i; "fast";
   "-b:v:" +:+ i; py_str_int width +:+ "k";
   "-maxrate:" +:+ i; py_str_int width +:+ "k";
   "-bufsize:" +:+ i; py_str_int (width * 2) +:+ "k";
   "-c:a:" +:+ i; "aac";
   "-b:a:" +:+ i; AUDIO_BITRATES_get height "64k"].

(** The loop [for idx, (width, height) in enumerate(resolutions)], from
    index [idx] on: the three lists it leaves in [filters],
    [stream_mappings] and [output_params]. *)
Fixpoint build_loop (idx : nat) (rs : list (Z * Z))
  : list string * list string * list string :=
  match rs with
  | [] => ([], [], [])
  | (width, height) :: rs' =>
      let '(fs, ms, ps) := build_loop (S idx) rs' in
      (v_filter idx width height :: a_filter idx :: fs,
       (stream_mapping idx ++ ms)%list,
       (output_param idx width height ++ ps)%list)
  end.

(** Lines 75-91 *)
Definition build_cmd (input_path output_dir : string)
    (filters stream_mappings output_params : list string) : list string :=
  ([ffmpeg_path; "-i"; input_path; "-y";
   "-filter_complex"; String.concat ";" filters]
  ++ stream_mappings
  ++ ["-f"; "dash"; "-seg_duration"; "6"; "-use_timeline"; "1";
      "-use_template"; "1";
      "-init_seg_name"; "init_$RepresentationID$.m4s";
      "-media_seg_name"; "segment_$RepresentationID$_$Number$.m4s";
      "-adaptation_sets"; "id=0,streams=v id=1,streams=a"]
  ++ output_params
  ++ [output_dir +:+ "/manifest.mpd"])%list.

(** Lines 38-91 as a pure function: the command, or the [ValueError] of
    lines 71-72. *)
Definition make_command (input_path output_dir : string)
    (resolutions : list (Z * Z)) : res (list string) :=
  let '(filters, stream_mappings, output_params) := build_loop 0 resolutions in
  if (bool_decide (filters = []) || bool_decide (stream_mappings = []))%bool
  then Exc "No valid FFmpeg filter chains or stream mappings generated."
  else Ok (build_cmd input_path output_dir filters stream_mappings output_params).

(* ------------------------------------------------------------------ *)
(** ** Effects: local filesystem, trace of external calls, environment *)

Inductive kind := File | Dir.

Inductive event :=
| EvDownload (bucket key path : string)
| EvChmod (path : string)
| EvSpawn (cmd : list string)
| EvUpload (path bucket key content_type : string)
| EvPrint (msg : string).

Record St := mkSt { st_fs : gmap string kind; st_trace : list event }.

(** What [subprocess.run(cmd, ...)] does: the child ran (its exit code,
    its stderr, the names of the files it wrote into the output
    directory), or it could not be spawned. *)
Inductive ffmpeg_outcome :=
| Spawned (returncode : Z) (stderr : string) (produced : list string)
| SpawnFailed (msg : string).

(** The world the handler runs in. [env_download b k] and
    [env_upload b k] give [None] when the S3 call succeeds and the
    exception's message otherwise; [env_rm_fails p] says that deleting
    [p] fails with an [OSError] (for instance [EPERM] or [EBUSY]). *)
Record Env := mkEnv {
  env_download : string -> string -> option string;
  env_download_partial : bool;  (** a failed download leaves a partial file *)
  env_ffmpeg : list string -> ffmpeg_outcome;
  env_upload : string -> string -> option string;
  env_rm_fails : string -> bool;
  env_set_order : list string  (** iteration order of [ALLOWED_EXTENSIONS] *)
}.

(** A state and exception monad. *)
Definition M (A : Type) : Type := St -> St * res A.

Definition ret {A} (a : A) : M A := fun s => (s, Ok a).
Definition raise {A} (msg : string) : M A := fun s => (s, Exc msg).
Definition bind {A B} (m : M A) (k : A -> M B) : M B :=
  fun s => match m s with
           | (s', Ok a) => k a s'
           | (s', Exc e) => (s', Exc e)
           end.
Definition lift {A} (r : res A) : M A :=
  match r with Ok a => ret a | Exc e => raise e end.

Notation "'let!' x ':=' m 'in' k" := (bind m (fun x => k))
  (at level 200, x name, m at level 100, k at level 200).

(** [try: m except Exception as e: h(e)] *)
Definition try_except {A} (m : M A) (h : string -> M A) : M A :=
  fun s => match m s with
           | (s', Ok a) => (s', Ok a)
           | (s', Exc e) => h e s'
           end.

(** [try: m finally: fin]; an exception raised by [fin] replaces the
    outcome of [m]. *)
Definition try_finally {A} (m : M A) (fin : M unit) : M A :=
  fun s => match m s with
           | (s1, r) =>
               match fin s1 with
               | (s2, Ok _) => (s2, r)
               | (s2, Exc e) => (s2, Exc e)
               end
           end.

Definition emit (ev : event) : M unit :=
  fun s => (mkSt (st_fs s) (st_trace s ++ [ev])%list, Ok tt).

Definition print (msg : string) : M unit := emit (EvPrint msg).

Definition set_fs (f : gmap string kind -> gmap string kind) : M unit :=
  fun s => (mkSt (f (st_fs s)) (st_trace s), Ok tt).

Definition os_error (errno text path : string) : string :=
  "[Errno " +:+ errno +:+ "] " +:+ text +:+ ": '" +:+ path +:+ "'".

Fixpoint has_slash (s : string) : bool :=
  match s with
  | EmptyString => false
  | String c s' => ascii_eqb c "/"%char || has_slash s'
  end.

(** The name of [p] as an entry of directory [d], if it is one. *)
Definition child_name (d p : string) : option string :=
  let pre := d +:+ "/" in
  if String.prefix pre p then
    let n := substring (String.length pre) (String.length p - String.length pre) p in
    if String.eqb n "" || has_slash n then None else Some n
  else None.

(** Names of the regular files directly inside [d], in directory order. *)
Definition list_files (d : string) (fs : gmap string kind) : list string :=
  omap (fun pk : string * kind =>
          match pk.2 with File => child_name d pk.1 | Dir => None end)
       (map_to_list fs).

(** [p] is [d] or lies below it *)
Definition in_tree (d p : string) : bool :=
  String.eqb p d || String.prefix (d +:+ "/") p.

Section Handler.
Variable env : Env.

(** [Path.exists()] *)
Definition path_exists (p : string) : M bool :=
  fun s => (s, Ok (match st_fs s !! p with Some _ => true | None => false end)).

(** [os.remove(p)] and [Path.unlink()] *)
Definition os_remove (p : string) : M unit :=
  fun s => match st_fs s !! p with
           | None => (s, Exc (os_error "2" "No such file or directory" p))
           | Some Dir => (s, Exc (os_error "21" "Is a directory" p))
           | Some File =>
               if env_rm_fails env p
               then (s, Exc (os_error "1" "Operation not permitted" p))
               else (mkSt (delete p (st_fs s)) (st_trace s), Ok tt)
           end.

(** [shutil.rmtree(d)]; a failure anywhere in the tree is charged to its
    root [d], and the tree is then left in place. *)
Definition rmtree (d : string) : M unit :=
  fun s => match st_fs s !! d with
           | None => (s, Exc (os_error "2" "No such file or directory" d))
           | Some File => (s, Exc (os_error "20" "Not a directory" d))
           | Some Dir =>
               if env_rm_fails env d
               then (s, Exc (os_error "1" "Operation not permitted" d))
               else (mkSt (filter (fun pk : string * kind => negb (in_tree d pk.1) = true)
                                  (st_fs s)) (st_trace s), Ok tt)
           end.

(** [Path.mkdir(parents=True, exist_ok=True)] ([/tmp] exists). *)
Definition mkdir (d : string) : M unit :=
  fun s => match st_fs s !! d with
           | Some File => (s, Exc (os_error "17" "File exists" d))
           | Some Dir => (s, Ok tt)
           | None => (mkSt (<[d := Dir]> (st_fs s)) (st_trace s), Ok tt)
           end.

(** [[f.name for f in d.iterdir() if f.is_file()]] *)
Definition iterdir_files (d : string) : M (list string) :=
  fun s => match st_fs s !! d with
           | Some Dir => (s, Ok (list_files d (st_fs s)))
           | Some File => (s, Exc (os_error "20" "Not a directory" d))
           | None => (s, Exc (os_error "2" "No such file or directory" d))
           end.

(** [s3.download_file(bucket, key, path)]: the call is validated
    ([Bucket] must be a string), then made; the object is written to
    [path]. *)
Definition download_file (bucket : json) (key path : string) : M unit :=
  match bucket with
  | JStr b =>
      let! _ := emit (EvDownload b key path) in
      match env_download env b key with
      | None => set_fs (insert path File)
      | Some msg =>
          let! _ := (if env_download_partial env then set_fs (insert path File)
                     else ret tt) in
          raise msg
      end
  | _ => raise "Parameter validation failed: Invalid type for parameter Bucket"
  end.

(** [subprocess.run(cmd, ...)]: the child writes its files into [output_dir]. *)
Definition subprocess_run (cmd : list string) (output_dir : string) : M (Z * string) :=
  let! _ := emit (EvSpawn cmd) in
  match env_ffmpeg env cmd with
  | SpawnFailed msg => raise msg
  | Spawned rc err produced =>
      let! _ := set_fs (fun fs =>
                  foldl (fun fs n => <[output_dir +:+ "/" +:+ n := File]> fs) fs produced) in
      ret (rc, err)
  end.

(** [run_ffmpeg_dash(input_path, output_dir, resolutions)], lines 30-104 *)
Definition run_ffmpeg_dash (input_path output_dir : string)
    (resolutions : list (Z * Z)) : M (list string) :=
  let! _ := mkdir output_dir in
  let! _ := emit (EvChmod output_dir) in
  let! cmd := lift (make_command input_path output_dir resolutions) in
  let! result := subprocess_run cmd output_dir in
  if negb (Z.eqb result.1 0)
  then raise ("FFmpeg failed with error: " +:+ result.2)
  else iterdir_files output_dir.

(** Lines 147-155: upload every regular file of the output directory. *)
Fixpoint upload_all (output_dir output_bucket dash_prefix : string)
    (files : list string) : M unit :=
  match files with
  | [] => ret tt
  | name :: files' =>
      let content_type :=
        if String.eqb (path_suffix name) ".mpd" then "application/dash+xml"
        else "video/mp4" in
      let obj_key := dash_prefix +:+ "/" +:+ name in
      let! _ := emit (EvUpload (output_dir +:+ "/" +:+ name) output_bucket obj_key content_type) in
      match env_upload env output_bucket obj_key with
      | Some msg => raise msg
      | None => upload_all output_dir output_bucket dash_prefix files'
      end
  end.

(** Lines 131-135: "Ensure clean state". *)
Definition ensure_clean (input_path output_dir : string) : M unit :=
  let! e1 := path_exists input_path in
  let! _ := (if e1 then os_remove input_path else ret tt) in
  let! e2 := path_exists output_dir in
  if e2 then rmtree output_dir else ret tt.

(** Lines 175-187: the [finally] block. *)
Definition cleanup (input_path output_dir : string) : M unit :=
  let! e1 := path_exists input_path in
  let! _ := (if e1 then
               try_except (os_remove input_path) (fun e =>
                 print ("Warning: Failed to delete " +:+ input_path +:+ ": " +:+ e))
             else ret tt) in
  let! e2 := path_exists output_dir in
  if e2 then
    try_except (rmtree output_dir) (fun e =>
      print ("Warning: Failed to delete " +:+ output_dir +:+ ": " +:+ e))
  else ret tt.

(** The returned dict: [statusCode] and [body]; the body is a string on
    the error paths and a dict on success. *)
Inductive body_t :=
| BStr (s : string)
| BObj (message manifest_url : string) (files : list string) (output_prefix : string).

Record response := mkResp { statusCode : Z; body : body_t }.

(** [f"{bucket}"]; on the success path [bucket] is a [str] (the download
    rejects any other value). *)
Definition py_format (j : json) : string :=
  match j with
  | JStr s => s
  | JNum z => py_str_int z
  | JNull => "None"
  | _ => "<" +:+ py_type_name j +:+ ">"
  end.

Definition input_path_of (file_id ext : string) : string := "/tmp/" +:+ file_id +:+ ext.
Definition output_dir_of (file_id : string) : string := "/tmp/" +:+ file_id +:+ "_dash_output".

(** Lines 138-170: the body of the inner [try]. *)
Definition transcode_and_upload (bucket : json) (key file_id : string) : M response :=
  let dash_prefix := "dash/" +:+ file_id in
  let input_path := input_path_of file_id (py_lower (path_suffix key)) in
  let output_dir := output_dir_of file_id in
  let! _ := download_file bucket key input_path in
  let! output_files := run_ffmpeg_dash input_path output_dir RESOLUTIONS in
  let output_bucket := "manifestdatabucket" in
  let! files := iterdir_files output_dir in
  let! _ := upload_all output_dir output_bucket dash_prefix files in
  let manifest_url :=
    "https://" +:+ py_format bucket +:+ ".s3.amazonaws.com/" +:+ dash_prefix +:+ "/manifest.mpd" in
  ret (mkResp 200 (BObj "DASH conversion successful" manifest_url output_files
                        ("s3://" +:+ py_format bucket +:+ "/" +:+ dash_prefix +:+ "/"))).

(** Lines 112-187: the body of the outer [try]. *)
Definition process_event (event : json) : M response :=
  let! bk := lift (parse_record event) in
  let '(bucket, key) := bk in
  let ext := py_lower (path_suffix key) in
  if negb (allowed ext) then
    ret (mkResp 400 (BStr ("Unsupported format: " +:+ ext +:+ ". Allowed: "
                           +:+ set_repr (env_set_order env))))
  else
    let file_id := path_stem key in
    let input_path := input_path_of file_id ext in
    let output_dir := output_dir_of file_id in
    let! _ := ensure_clean input_path output_dir in
    try_finally (try_except (transcode_and_upload bucket key file_id) raise)
                (cleanup input_path output_dir).

(** [lambda_handler(event, context)], lines 107-194 *)
Definition lambda_handler (event : json) : M response :=
  try_except (process_event event) (fun e =>
    let! _ := print ("Error processing video: " +:+ e) in
    ret (mkResp 500 (BStr ("Error: " +:+ e)))).

End Handler.

(* ------------------------------------------------------------------ *)
(** ** Observations used to state the properties *)

(** Python's [enumerate(rs)] *)
Definition enumerate {A} (rs : list A) : list (nat * A) :=
  combine (seq 0 (length rs)) rs.

(** The arguments that follow a [-map] flag in an argument vector. *)
Fixpoint map_targets (cmd : list string) : list string :=
  match cmd with
  | [] => []
  | x :: rest =>
      ((if String.eqb x "-map" then match rest with y :: _ => [y] | [] => [] end
        else []) ++ map_targets rest)%list
  end.

Definition is_video_label (x : string) : bool := String.prefix "[v" x.
Definition is_audio_label (x : string) : bool := String.prefix "[a" x.

(** The audio bitrate table as the spec states it. *)
Definition spec_audio_bitrate (height : Z) : string :=
  if Z.eqb height 720 then "128k"
  else if Z.eqb height 480 then "96k"
  else if Z.eqb height 360 then "64k"
  else if Z.eqb height 240 then "48k"
  else "64k".

(** The extension and the staging paths the handler derives from a key
    (lines 117, 124, 128, 129). *)
Definition key_ext (key : string) : string := py_lower (path_suffix key).
Definition staging_input (key : string) : string :=
  input_path_of (path_stem key) (key_ext key).
Definition staging_output (key : string) : string := output_dir_of (path_stem key).

(** Neither staging path is of the kind its deletion cannot handle. *)
Definition staging_ok (ip od : string) (s : St) : Prop :=
  st_fs s !! ip <> Some Dir /\ st_fs s !! od <> Some File.

(** [m] keeps the state predicate [P], whatever its outcome. *)
Definition preserves {A} (P : St -> Prop) (m : M A) : Prop :=
  forall s s' r, P s -> m s = (s', r) -> P s'.

(** [event.get]-style field access of a JSON object, and a path of them. *)
Definition field (j : json) (k : string) : option json :=
  match j with JObj kvs => assoc k kvs | _ => None end.

Fixpoint lookup_path (j : json) (p : list string) : option json :=
  match p with
  | [] => Some j
  | k :: p' => match field j k with Some v => lookup_path v p' | None => None end
  end.

(** An event malformed at the interface: no [Records], no record, or a
    first record without [s3.bucket.name] or [s3.object.key]. *)
Definition malformed_event (ev : json) : Prop :=
  field ev "Records" = None \/
  field ev "Records" = Some (JList []) \/
  exists record rest, field ev "Records" = Some (JList (record :: rest)) /\
    (lookup_path record ["s3"; "bucket"; "name"] = None \/
     lookup_path record ["s3"; "object"; "key"] = None).

(** ** Sample inputs *)

Definition s3_event (bucket key : string) : json :=
  JObj [("Records", JList [JObj [("s3", JObj [("bucket", JObj [("name", JStr bucket)]);
                                              ("object", JObj [("key", JStr key)])])]])].

Definition ev_upload : json := s3_event "uploads" "videos/clip.MP4".
Definition ev_text : json := s3_event "uploads" "notes/clip.txt".

(** Every service call succeeds; FFmpeg writes a manifest and a segment. *)
Definition env_ok : Env :=
  mkEnv (fun _ _ => None) false (fun _ => Spawned 0 "" ["manifest.mpd"; "init_0.m4s"])
        (fun _ _ => None) (fun _ => false) ALLOWED_EXTENSIONS.

(** As [env_ok], but the staged input file cannot be deleted. *)
Definition env_locked : Env :=
  mkEnv (fun _ _ => None) false (fun _ => Spawned 0 "" ["manifest.mpd"; "init_0.m4s"])
        (fun _ _ => None) (fun p => String.eqb p "/tmp/clip.mp4") ALLOWED_EXTENSIONS.

(** As [env_ok], but FFmpeg exits with status 1. *)
Definition env_ffmpeg_fails : Env :=
  mkEnv (fun _ _ => None) false (fun _ => Spawned 1 "Invalid data found when processing input" [])
        (fun _ _ => None) (fun _ => false) ALLOWED_EXTENSIONS.

Definition st_empty : St := mkSt empty [].

(** What a crashed run leaves behind: the downloaded input file. *)
Definition leftover_input : gmap string kind := {[ "/tmp/clip.mp4" := File ]}.

(** ** Observations of the trace and of the filesystem *)

(** The upload the loop of lines 147-155 makes for the file [name]. *)
Definition upload_event (output_dir output_bucket dash_prefix name : string) : event :=
  EvUpload (output_dir +:+ "/" +:+ name) output_bucket (dash_prefix +:+ "/" +:+ name)
           (if String.eqb (path_suffix name) ".mpd" then "application/dash+xml"
            else "video/mp4").

Definition is_upload (e : event) : bool :=
  match e with EvUpload _ _ _ _ => true | _ => false end.

Definition is_print (e : event) : Prop := exists m, e = EvPrint m.

(** An upload of the file [name] of the output directory of [stem] to
    [manifestdatabucket] under [dash/{stem}/]. *)
Definition upload_to_destination (stem : string) (e : event) : Prop :=
  match e with
  | EvUpload src bkt k _ =>
      bkt = "manifestdatabucket" /\
      exists name, src = output_dir_of stem +:+ "/" +:+ name /\ k = "dash/" +:+ stem +:+ "/" +:+ name
  | _ => True
  end.

(** [s] extends the trace of [s0] by events that satisfy [P]. *)
Definition appends (P : event -> Prop) (s0 s : St) : Prop :=
  exists extra, st_trace s = (st_trace s0 ++ extra)%list /\ Forall P extra.

(** [s] agrees with [s0] on every path other than [ip] and the tree of [od]. *)
Definition frame (ip od : string) (s0 s : St) : Prop :=
  forall q, q <> ip -> in_tree od q = false -> st_fs s !! q = st_fs s0 !! q.

Definition keeps_trace {A} (m : M A) : Prop :=
  forall s s' r, m s = (s', r) -> st_trace s' = st_trace s.

Definition keeps_fs {A} (m : M A) : Prop :=
  forall s s' r, m s = (s', r) -> st_fs s' = st_fs s.

(** No character of [s] is [+] or [%]. *)
Definition no_escapes (s : string) : bool :=
  forallb (fun c => negb (ascii_eqb c "+"%char) && negb (ascii_eqb c "%"%char))
          (list_ascii_of_string s).

(* ================================================================== *)
(** * Proofs *)

(** ** Strings *)

Lemma append_k_not_map (s : string) : s +:+ "k" <> "-map".
Proof.
  destruct s as [|c1 [|c2 [|c3 [|c4 s]]]]; simpl; try discriminate.
  intros H; inversion H; destruct s; discriminate.
Qed.

Lemma length_append (s t : string) :
  String.length (s +:+ t) = (String.length s + String.length t)%nat.
Proof. induction s as [|c s IH]; simpl; [reflexivity | rewrite IH; reflexivity]. Qed.

Lemma append_manifest_not_map (d : string) : d +:+ "/manifest.mpd" <> "-map".
Proof.
  intros H. apply (f_equal String.length) in H.
  rewrite length_append in H. simpl in H. lia.
Qed.

Lemma eqb_false_neq (s t : string) : s <> t -> String.eqb s t = false.
Proof. intros H. destruct (String.eqb_spec s t); congruence. Qed.

(** ** The command builder *)

Lemma build_loop_spec (idx : nat) (rs : list (Z * Z)) :
  build_loop idx rs =
  (flat_map (fun '(i, (w, h)) => [v_filter i w h; a_filter i])
            (combine (seq idx (length rs)) rs),
   flat_map (fun '(i, _) => stream_mapping i) (combine (seq idx (length rs)) rs),
   flat_map (fun '(i, (w, h)) => output_param i w h) (combine (seq idx (length rs)) rs)).
Proof.
  revert idx. induction rs as [|[w h] rs IH]; intros idx; [reflexivity|].
  simpl. rewrite IH. reflexivity.
Qed.

Lemma map_targets_app (l1 l2 : list string) :
  last l1 <> Some "-map" ->
  map_targets (l1 ++ l2) = (map_targets l1 ++ map_targets l2)%list.
Proof.
  induction l1 as [|x l1 IH]; intros Hl; [reflexivity|].
  destruct l1 as [|y l1].
  - simpl in *. rewrite (eqb_false_neq x "-map") by congruence. reflexivity.
  - change (map_targets ((x :: y :: l1) ++ l2)) with
      ((if String.eqb x "-map" then [y] else []) ++ map_targets ((y :: l1) ++ l2))%list.
    change (map_targets (x :: y :: l1)) with
      ((if String.eqb x "-map" then [y] else []) ++ map_targets (y :: l1))%list.
    rewrite IH by exact Hl. rewrite app_assoc. reflexivity.
Qed.

Lemma map_targets_none (l : list string) :
  Forall (fun x => x <> "-map") l -> map_targets l = [].
Proof.
  induction 1 as [|x l Hx _ IH]; [reflexivity|].
  simpl. rewrite eqb_false_neq by exact Hx. exact IH.
Qed.

Lemma audio_bitrate_not_map (h : Z) : AUDIO_BITRATES_get h "64k" <> "-map".
Proof.
  unfold AUDIO_BITRATES_get, AUDIO_BITRATES.
  destruct (list_to_map _ !! h) as [v|] eqn:E; simpl; [|discriminate].
  apply elem_of_list_to_map_2 in E.
  rewrite !elem_of_cons in E.
  destruct E as [E|[E|[E|[E|E]]]]; inversion E; subst; discriminate.
Qed.

Lemma output_param_no_map (i : nat) (w h : Z) :
  Forall (fun x => x <> "-map") (output_param i w h).
Proof.
  unfold output_param.
  repeat constructor; try discriminate;
    try apply append_k_not_map; apply audio_bitrate_not_map.
Qed.

Lemma map_targets_stream_mapping (i : nat) (rest : list string) :
  map_targets (stream_mapping i ++ rest)%list = v_label i :: a_label i :: map_targets rest.
Proof. reflexivity. Qed.

Lemma map_targets_mappings (prs : list (nat * (Z * Z))) (rest : list string) :
  map_targets (flat_map (fun '(i, _) => stream_mapping i) prs ++ rest)%list =
  (flat_map (fun '(i, _) => [v_label i; a_label i]) prs ++ map_targets rest)%list.
Proof.
  induction prs as [|[i wh] prs IH]; [reflexivity|].
  cbn [flat_map]. rewrite <- app_assoc, map_targets_stream_mapping, IH.
  reflexivity.
Qed.

Lemma Forall_flat_map {A B} (P : B -> Prop) (f : A -> list B) (l : list A) :
  (forall x, Forall P (f x)) -> Forall P (flat_map f l).
Proof.
  intros Hf. induction l as [|x l IH]; simpl; [constructor|].
  apply Forall_app; split; [apply Hf | exact IH].
Qed.

Lemma prefix_append (s t : string) : String.prefix s (s +:+ t) = true.
Proof.
  induction s as [|c s IH]; simpl.
  - destruct t; reflexivity.
  - destruct (ascii_dec c c); [exact IH | congruence].
Qed.

Lemma label_kinds (i : nat) :
  is_video_label (v_label i) = true /\ is_video_label (a_label i) = false /\
  is_audio_label (v_label i) = false /\ is_audio_label (a_label i) = true.
Proof.
  unfold is_video_label, is_audio_label, v_label, a_label.
  repeat split; try reflexivity; apply prefix_append.
Qed.

Lemma video_labels_enumerated (k : nat) (rs : list (Z * Z)) :
  List.filter is_video_label
    (flat_map (fun '(i, _) => [v_label i; a_label i]) (combine (seq k (length rs)) rs))
  = map v_label (seq k (length rs)).
Proof.
  revert k. induction rs as [|wh rs IH]; intros k; [reflexivity|].
  destruct (label_kinds k) as (H1 & H2 & H3 & H4). simpl. rewrite ?H1, ?H2, IH. reflexivity.
Qed.

Lemma audio_labels_enumerated (k : nat) (rs : list (Z * Z)) :
  List.filter is_audio_label
    (flat_map (fun '(i, _) => [v_label i; a_label i]) (combine (seq k (length rs)) rs))
  = map a_label (seq k (length rs)).
Proof.
  revert k. induction rs as [|wh rs IH]; intros k; [reflexivity|].
  destruct (label_kinds k) as (H1 & H2 & H3 & H4). simpl. rewrite ?H3, ?H4, IH. reflexivity.
Qed.

Lemma filters_length (k : nat) (rs : list (Z * Z)) :
  length (flat_map (fun '(i, (w, h)) => [v_filter i w h; a_filter i])
                   (combine (seq k (length rs)) rs)) = 2 * length rs.
Proof.
  revert k. induction rs as [|[w h] rs IH]; intros k; [reflexivity|].
  simpl. rewrite IH. lia.
Qed.

(** The argument vector built for a non-empty resolution list, spelled
    out piece by piece. *)
Lemma make_command_shape (input_path output_dir : string) (rs : list (Z * Z)) :
  rs <> [] ->
  make_command input_path output_dir rs =
  Ok (build_cmd input_path output_dir
        (flat_map (fun '(i, (w, h)) => [v_filter i w h; a_filter i]) (enumerate rs))
        (flat_map (fun '(i, _) => stream_mapping i) (enumerate rs))
        (flat_map (fun '(i, (w, h)) => output_param i w h) (enumerate rs))).
Proof.
  intros Hne. unfold make_command. rewrite build_loop_spec.
  destruct rs as [|[w h] rs]; [congruence|].
  unfold enumerate. cbn [length seq combine flat_map app].
  rewrite !bool_decide_false by discriminate. reflexivity.
Qed.

(** C6 *)
(** For a resolution list of length N >= 1 the command maps exactly the
    video streams [v0]..[v(N-1)] and the audio streams [a0]..[a(N-1)],
    and its [-filter_complex] argument is the [;]-join of 2N filters: per
    index the video filter, then the audio filter. *)
Theorem make_command_maps_and_filters (input_path output_dir : string)
    (rs : list (Z * Z)) :
  rs <> [] ->
  exists cmd,
    make_command input_path output_dir rs = Ok cmd /\
    List.filter is_video_label (map_targets cmd) = map v_label (seq 0 (length rs)) /\
    List.filter is_audio_label (map_targets cmd) = map a_label (seq 0 (length rs)) /\
    exists filters,
      nth_error cmd 4 = Some "-filter_complex" /\
      nth_error cmd 5 = Some (String.concat ";" filters) /\
      length filters = 2 * length rs /\
      filters = flat_map (fun '(i, (w, h)) => [v_filter i w h; a_filter i]) (enumerate rs).
Proof.
  intros Hne. rewrite (make_command_shape _ _ _ Hne).
  eexists; split; [reflexivity|].
  set (F := String.concat ";"
    (flat_map (fun '(i, (w, h)) => [v_filter i w h; a_filter i]) (enumerate rs))).
  assert (HF : F <> "-map").
  { destruct rs as [|[w h] rs]; [congruence|].
    unfold F, enumerate. cbn [length seq combine flat_map app].
    destruct rs; simpl; discriminate. }
  unfold build_cmd.
  rewrite (map_targets_app [ffmpeg_path; "-i"; input_path; "-y"; "-filter_complex"; F])
    by (simpl; congruence).
  rewrite map_targets_mappings.
  rewrite (map_targets_none (_ ++ _ ++ _)%list).
  2:{ apply Forall_app; split; [repeat constructor; discriminate|].
      apply Forall_app; split.
      - apply Forall_flat_map. intros [i [w h]]. apply output_param_no_map.
      - repeat constructor. apply append_manifest_not_map. }
  rewrite app_nil_r. unfold enumerate.
  rewrite !List.filter_app, video_labels_enumerated, audio_labels_enumerated.
  assert (HP : forall p, List.filter p (map_targets
             [ffmpeg_path; "-i"; input_path; "-y"; "-filter_complex"; F]) =
             List.filter p (if String.eqb input_path "-map" then ["-y"] else [])).
  { intros p. simpl. rewrite (eqb_false_neq F "-map" HF).
    destruct (String.eqb input_path "-map"); reflexivity. }
  rewrite !HP. destruct (String.eqb input_path "-map"); simpl.
  all: split; [reflexivity|]; split; [reflexivity|].
  all: exists (flat_map (fun '(i, (w, h)) => [v_filter i w h; a_filter i])
                 (combine (seq 0 (length rs)) rs)).
  all: split; [reflexivity|]; split; [reflexivity|]; split; [apply filters_length|reflexivity].
Qed.

(** C7 *)
(** For the empty resolution list the command builder fails with the
    configuration error, and [run_ffmpeg_dash] raises without spawning any
    process (a pre-existing regular file at the output directory makes its
    [mkdir] raise even earlier). *)
Theorem run_ffmpeg_dash_empty_raises (env : Env) (input_path output_dir : string) (s : St) :
  make_command input_path output_dir [] =
    Exc "No valid FFmpeg filter chains or stream mappings generated." /\
  exists s' msg,
    run_ffmpeg_dash env input_path output_dir [] s = (s', Exc msg) /\
    (exists extra, st_trace s' = (st_trace s ++ extra)%list /\
                   forall cmd, ~ In (EvSpawn cmd) extra) /\
    (st_fs s !! output_dir <> Some File ->
     msg = "No valid FFmpeg filter chains or stream mappings generated.").
Proof.
  split; [reflexivity|].
  unfold run_ffmpeg_dash, bind, mkdir, emit, lift.
  destruct (st_fs s !! output_dir) as [[|]|]; simpl.
  - do 2 eexists; split; [reflexivity|]. split; [|congruence].
    exists []. rewrite app_nil_r. split; [reflexivity|]. intros _ [].
  - do 2 eexists; split; [reflexivity|]. split; [|reflexivity].
    exists [EvChmod output_dir]. split; [reflexivity|].
    intros cmd [H|[]]; discriminate.
  - do 2 eexists; split; [reflexivity|]. split; [|reflexivity].
    exists [EvChmod output_dir]. split; [reflexivity|].
    intros cmd [H|[]]; discriminate.
Qed.

Lemma nth_error_enumerate_from (k i : nat) (rs : list (Z * Z)) (wh : Z * Z) :
  nth_error rs i = Some wh ->
  nth_error (combine (seq k (length rs)) rs) i = Some ((k + i)%nat, wh).
Proof.
  revert k i. induction rs as [|x rs IH]; intros k i H; [destruct i; discriminate|].
  destruct i as [|i]; simpl in *.
  - injection H as ->. rewrite Nat.add_0_r. reflexivity.
  - rewrite (IH (S k) i H). f_equal. f_equal. lia.
Qed.

Lemma audio_bitrate_table (h : Z) : AUDIO_BITRATES_get h "64k" = spec_audio_bitrate h.
Proof.
  unfold spec_audio_bitrate.
  destruct (Z.eqb_spec h 720); [subst; reflexivity|].
  destruct (Z.eqb_spec h 480); [subst; reflexivity|].
  destruct (Z.eqb_spec h 360); [subst; reflexivity|].
  destruct (Z.eqb_spec h 240); [subst; reflexivity|].
  unfold AUDIO_BITRATES_get, AUDIO_BITRATES.
  rewrite not_elem_of_list_to_map_1; [reflexivity|].
  simpl. rewrite !not_elem_of_cons. repeat split; try assumption.
  apply not_elem_of_nil.
Qed.

Lemma infix_app_l {A} (m l b : list A) :
  (exists pre post, l = (pre ++ b ++ post)%list) ->
  exists pre post, (m ++ l)%list = (pre ++ b ++ post)%list.
Proof.
  intros (pre & post & ->). exists (m ++ pre)%list, post.
  rewrite app_assoc. reflexivity.
Qed.

Lemma infix_app_r {A} (m l b : list A) :
  (exists pre post, l = (pre ++ b ++ post)%list) ->
  exists pre post, (l ++ m)%list = (pre ++ b ++ post)%list.
Proof.
  intros (pre & post & ->). exists pre, (post ++ m)%list.
  rewrite <- !app_assoc. reflexivity.
Qed.

Lemma infix_app_here {A} (b l : list A) :
  exists pre post, (b ++ l)%list = (pre ++ b ++ post)%list.
Proof. exists [], l. reflexivity. Qed.

(** C8 *)
(** For each index [i] with resolution [(w, h)], the command carries, as
    one contiguous block, libx264 with crf 23 and preset fast, video
    bitrate and max rate [{w}k], buffer size [{2w}k], aac audio, and the
    audio bitrate of the height table (128k, 96k, 64k, 48k for 720, 480,
    360, 240; 64k otherwise). *)
Theorem make_command_output_params (input_path output_dir : string)
    (rs : list (Z * Z)) (i : nat) (w h : Z) :
  nth_error rs i = Some (w, h) ->
  exists cmd,
    make_command input_path output_dir rs = Ok cmd /\
    exists pre post, cmd = (pre ++
      ["-c:v:" +:+ pretty i; "libx264";
       "-crf:" +:+ pretty i; "23";
       "-preset:" +:+ pretty i; "fast";
       "-b:v:" +:+ pretty i; py_str_int w +:+ "k";
       "-maxrate:" +:+ pretty i; py_str_int w +:+ "k";
       "-bufsize:" +:+ pretty i; py_str_int (2 * w) +:+ "k";
       "-c:a:" +:+ pretty i; "aac";
       "-b:a:" +:+ pretty i; spec_audio_bitrate h] ++ post)%list.
Proof.
  intros Hi.
  assert (Hne : rs <> []) by (intros ->; destruct i; discriminate).
  rewrite (make_command_shape _ _ _ Hne).
  eexists; split; [reflexivity|].
  pose proof (nth_error_enumerate_from 0 i rs (w, h) Hi) as He. simpl in He.
  apply nth_error_split in He as (l1 & l2 & Hsplit & _).
  unfold enumerate, build_cmd. rewrite Hsplit, !flat_map_app.
  cbn [flat_map].
  assert (Hblock : output_param i w h =
      ["-c:v:" +:+ pretty i; "libx264"; "-crf:" +:+ pretty i; "23";
       "-preset:" +:+ pretty i; "fast"; "-b:v:" +:+ pretty i; py_str_int w +:+ "k";
       "-maxrate:" +:+ pretty i; py_str_int w +:+ "k";
       "-bufsize:" +:+ pretty i; py_str_int (2 * w) +:+ "k";
       "-c:a:" +:+ pretty i; "aac"; "-b:a:" +:+ pretty i; spec_audio_bitrate h]).
  { unfold output_param. rewrite Z.mul_comm, audio_bitrate_table. reflexivity. }
  rewrite Hblock.
  apply infix_app_l, infix_app_l, infix_app_l, infix_app_r, infix_app_l, infix_app_here.
Qed.

(** ** The monad *)

Lemma bind_inv {A B} (m : M A) (k : A -> M B) s s' r :
  bind m k s = (s', r) ->
  (exists s1 a, m s = (s1, Ok a) /\ k a s1 = (s', r)) \/
  (exists e, m s = (s', Exc e) /\ r = Exc e).
Proof.
  unfold bind. destruct (m s) as [s1 [a|e]]; intros H.
  - left. eauto.
  - right. injection H as <- <-. eauto.
Qed.

Lemma try_except_inv {A} (m : M A) h s s' r :
  try_except m h s = (s', r) ->
  (exists a, m s = (s', Ok a) /\ r = Ok a) \/
  (exists s1 e, m s = (s1, Exc e) /\ h e s1 = (s', r)).
Proof.
  unfold try_except. destruct (m s) as [s1 [a|e]]; intros H.
  - left. injection H as <- <-. eauto.
  - right. eauto.
Qed.

Lemma try_finally_inv {A} (m : M A) fin s s' r :
  try_finally m fin s = (s', r) ->
  exists s1 r1, m s = (s1, r1) /\
    ((exists u, fin s1 = (s', Ok u) /\ r = r1) \/
     (exists e, fin s1 = (s', Exc e) /\ r = Exc e)).
Proof.
  unfold try_finally. intros Hfin. destruct (m s) as [s1 r1].
  exists s1, r1. split; [reflexivity|].
  destruct (fin s1) as [s2 [u|e]]; injection Hfin as <- <-.
  - left. exists u. auto.
  - right. exists e. auto.
Qed.

Lemma try_except_print_total (m : M unit) (f : string -> string) s :
  exists s', try_except m (fun e => print (f e)) s = (s', Ok tt).
Proof.
  unfold try_except. destruct (m s) as [s1 [[]|e]]; eauto.
Qed.

Lemma preserves_bind {A B} P (m : M A) (k : A -> M B) :
  preserves P m -> (forall a, preserves P (k a)) -> preserves P (bind m k).
Proof.
  intros Hm Hk s s' r Hs H. apply bind_inv in H as [(s1 & a & H1 & H2)|(e & H1 & _)].
  - eapply Hk; [|exact H2]. eapply Hm; eauto.
  - eapply Hm; eauto.
Qed.

Lemma preserves_ret {A} P (a : A) : preserves P (ret a).
Proof. intros s s' r Hs H. injection H as <- _. exact Hs. Qed.

Lemma preserves_raise {A} P e : preserves P (@raise A e).
Proof. intros s s' r Hs H. injection H as <- _. exact Hs. Qed.

Lemma preserves_lift {A} P (x : res A) : preserves P (lift x).
Proof. destruct x; [apply preserves_ret | apply preserves_raise]. Qed.

Lemma preserves_try_except {A} P (m : M A) h :
  preserves P m -> (forall e, preserves P (h e)) -> preserves P (try_except m h).
Proof.
  intros Hm Hh s s' r Hs H. apply try_except_inv in H as [(a & H1 & _)|(s1 & e & H1 & H2)].
  - eapply Hm; eauto.
  - eapply Hh; [|exact H2]. eapply Hm; eauto.
Qed.

Lemma preserves_if {A} P (b : bool) (m1 m2 : M A) :
  preserves P m1 -> preserves P m2 -> preserves P (if b then m1 else m2).
Proof. destruct b; auto. Qed.

(** ** Staging paths *)

Lemma append_cons (c : ascii) (s t : string) : String c s +:+ t = String c (s +:+ t).
Proof. reflexivity. Qed.

Lemma append_assoc_str (a b c : string) : (a +:+ b) +:+ c = a +:+ (b +:+ c).
Proof.
  induction a as [|x a IH]; [reflexivity|].
  rewrite !append_cons, IH. reflexivity.
Qed.

Lemma prefix_cancel (s a b : string) :
  String.prefix (s +:+ a) (s +:+ b) = String.prefix a b.
Proof.
  induction s as [|c s IH]; [reflexivity|].
  rewrite !append_cons. simpl. destruct (ascii_dec c c); [exact IH | congruence].
Qed.

Lemma allowed_cases (ext : string) :
  allowed ext = true ->
  ext = ".mp4" \/ ext = ".mkv" \/ ext = ".mov" \/ ext = ".avi" \/ ext = ".webm".
Proof.
  unfold allowed, ALLOWED_EXTENSIONS. simpl.
  destruct (String.eqb_spec ext ".mp4"); [auto|].
  destruct (String.eqb_spec ext ".mkv"); [auto|].
  destruct (String.eqb_spec ext ".mov"); [auto|].
  destruct (String.eqb_spec ext ".avi"); [auto|].
  destruct (String.eqb_spec ext ".webm"); [auto|]. discriminate.
Qed.

Lemma staging_distinct (fid ext : string) :
  allowed ext = true ->
  input_path_of fid ext <> output_dir_of fid /\
  in_tree (output_dir_of fid) (input_path_of fid ext) = false.
Proof.
  intros Hext. unfold input_path_of, output_dir_of.
  assert (Hne : "/tmp/" +:+ fid +:+ ext <> "/tmp/" +:+ fid +:+ "_dash_output").
  { intros H. apply (inj (String.app "/tmp/")) in H.
    apply (inj (String.app fid)) in H. subst ext. discriminate. }
  split; [exact Hne|].
  unfold in_tree. rewrite eqb_false_neq by exact Hne. simpl.
  rewrite !append_assoc_str, !prefix_cancel.
  apply allowed_cases in Hext as [->|[->|[->|[->| ->]]]]; reflexivity.
Qed.

Lemma child_ne_dir (d n : string) : d +:+ "/" +:+ n <> d.
Proof.
  intros H. apply (f_equal String.length) in H.
  rewrite !length_append in H. simpl in H. lia.
Qed.

Lemma in_tree_self (d : string) : in_tree d d = true.
Proof. unfold in_tree. rewrite String.eqb_refl. reflexivity. Qed.

Lemma in_tree_child (d n : string) : in_tree d (d +:+ "/" +:+ n) = true.
Proof.
  unfold in_tree. rewrite <- append_assoc_str, prefix_append, orb_true_r. reflexivity.
Qed.

(** ** The staging invariant *)

Section Staging.
Variable env : Env.
Variables ip od : string.
Hypothesis Hdist : ip <> od.

Lemma staging_ok_sub (s s' : St) :
  staging_ok ip od s ->
  (forall q k, st_fs s' !! q = Some k -> st_fs s !! q = Some k) ->
  staging_ok ip od s'.
Proof.
  intros [H1 H2] Hsub. split; intros H; [apply H1 | apply H2]; apply Hsub; exact H.
Qed.

Lemma staging_ok_insert (s : St) (p : string) (k : kind) tr :
  staging_ok ip od s -> (p = od -> k = Dir) -> (p = ip -> k = File) ->
  staging_ok ip od (mkSt (<[p := k]> (st_fs s)) tr).
Proof.
  intros [H1 H2] Hod Hip. unfold staging_ok. simpl. split.
  - destruct (decide (p = ip)) as [->|Hne].
    + rewrite lookup_insert_eq, (Hip eq_refl). discriminate.
    + rewrite lookup_insert_ne by exact Hne. exact H1.
  - destruct (decide (p = od)) as [->|Hne].
    + rewrite lookup_insert_eq, (Hod eq_refl). discriminate.
    + rewrite lookup_insert_ne by exact Hne. exact H2.
Qed.

Lemma preserves_emit (ev : event) : preserves (staging_ok ip od) (emit ev).
Proof. intros s s' r Hs H. injection H as <- _. exact Hs. Qed.

Lemma preserves_print (m : string) : preserves (staging_ok ip od) (print m).
Proof. apply preserves_emit. Qed.

Lemma preserves_exists (p : string) : preserves (staging_ok ip od) (path_exists p).
Proof. intros s s' r Hs H. injection H as <- _. exact Hs. Qed.

Lemma preserves_os_remove (p : string) : preserves (staging_ok ip od) (os_remove env p).
Proof.
  intros s s' r Hs H. unfold os_remove in H.
  destruct (st_fs s !! p) as [[|]|] eqn:Hp;
    [destruct (env_rm_fails env p)|..]; injection H as <- _; try exact Hs.
  eapply staging_ok_sub; [exact Hs|]. simpl. intros q k Hq.
  destruct (decide (p = q)) as [->|Hne].
  - rewrite lookup_delete_eq in Hq. discriminate.
  - rewrite lookup_delete_ne in Hq by exact Hne. exact Hq.
Qed.

Lemma preserves_rmtree (d : string) : preserves (staging_ok ip od) (rmtree env d).
Proof.
  intros s s' r Hs H. unfold rmtree in H.
  destruct (st_fs s !! d) as [[|]|] eqn:Hp;
    [|destruct (env_rm_fails env d)|]; injection H as <- _; try exact Hs.
  eapply staging_ok_sub; [exact Hs|]. simpl. intros q k Hq.
  eapply map_lookup_filter_Some_1_1. exact Hq.
Qed.

Lemma preserves_iterdir (d : string) : preserves (staging_ok ip od) (iterdir_files d).
Proof.
  intros s s' r Hs H. unfold iterdir_files in H.
  destruct (st_fs s !! d) as [[|]|]; injection H as <- _; exact Hs.
Qed.

Lemma preserves_mkdir_od : preserves (staging_ok ip od) (mkdir od).
Proof.
  intros s s' r Hs H. unfold mkdir in H.
  destruct (st_fs s !! od) as [[|]|]; injection H as <- _; try exact Hs.
  apply staging_ok_insert; [exact Hs | reflexivity | intros ->; congruence].
Qed.

Lemma preserves_download (b : json) (key : string) :
  preserves (staging_ok ip od) (download_file env b key ip).
Proof.
  unfold download_file. destruct b as [| |b| |]; try apply preserves_raise.
  apply preserves_bind; [apply preserves_emit | intros _].
  assert (Hins : preserves (staging_ok ip od) (set_fs (insert ip File))).
  { intros s s' r Hs H. injection H as <- _.
    apply staging_ok_insert; [exact Hs | congruence | reflexivity]. }
  destruct (env_download env b key); [|exact Hins].
  apply preserves_bind; [|intros _; apply preserves_raise].
  apply preserves_if; [exact Hins | apply preserves_ret].
Qed.

Lemma preserves_produce (produced : list string) :
  preserves (staging_ok ip od)
    (set_fs (fun fs => foldl (fun fs n => <[od +:+ "/" +:+ n := File]> fs) fs produced)).
Proof.
  intros s s' r Hs H. injection H as <- _.
  destruct s as [fs tr]. simpl. revert fs Hs.
  induction produced as [|n produced IH]; intros fs Hs; [exact Hs|].
  simpl. apply (IH (<[od +:+ "/" +:+ n := File]> fs)).
  apply (staging_ok_insert (mkSt fs tr)); [exact Hs| |reflexivity].
  intros H. exfalso. exact (child_ne_dir od n H).
Qed.

Lemma preserves_subprocess (cmd : list string) :
  preserves (staging_ok ip od) (subprocess_run env cmd od).
Proof.
  unfold subprocess_run.
  apply preserves_bind; [apply preserves_emit | intros _].
  destruct (env_ffmpeg env cmd); [|apply preserves_raise].
  apply preserves_bind; [apply preserves_produce | intros _; apply preserves_ret].
Qed.

Lemma preserves_upload_all (bucket prefix : string) (files : list string) :
  preserves (staging_ok ip od) (upload_all env od bucket prefix files).
Proof.
  induction files as [|n files IH]; simpl; [apply preserves_ret|].
  apply preserves_bind; [apply preserves_emit | intros _].
  destruct (env_upload env _ _); [apply preserves_raise | exact IH].
Qed.

Lemma preserves_run_ffmpeg (rs : list (Z * Z)) :
  preserves (staging_ok ip od) (run_ffmpeg_dash env ip od rs).
Proof.
  unfold run_ffmpeg_dash.
  apply preserves_bind; [apply preserves_mkdir_od | intros _].
  apply preserves_bind; [apply preserves_emit | intros _].
  apply preserves_bind; [apply preserves_lift | intros cmd].
  apply preserves_bind; [apply preserves_subprocess | intros res].
  apply preserves_if; [apply preserves_raise | apply preserves_iterdir].
Qed.

End Staging.

Lemma preserves_transcode (env : Env) (b : json) (key fid : string) :
  allowed (key_ext key) = true ->
  preserves (staging_ok (input_path_of fid (key_ext key)) (output_dir_of fid))
            (transcode_and_upload env b key fid).
Proof.
  intros Hext. destruct (staging_distinct fid (key_ext key) Hext) as [Hne _].
  unfold transcode_and_upload.
  apply preserves_bind; [apply preserves_download; exact Hne | intros _].
  apply preserves_bind; [apply preserves_run_ffmpeg; exact Hne | intros files0].
  apply preserves_bind; [apply preserves_iterdir | intros files].
  apply preserves_bind; [apply preserves_upload_all | intros _].
  apply preserves_ret.
Qed.

Section Cleanup.
Variable env : Env.
Variables ip od : string.
Hypothesis Hdist : ip <> od.
Hypothesis Hrm_ip : env_rm_fails env ip = false.
Hypothesis Hrm_od : env_rm_fails env od = false.

Lemma rmtree_removes (s : St) :
  st_fs s !! od = Some Dir ->
  rmtree env od s =
  (mkSt (filter (fun pk : string * kind => negb (in_tree od pk.1) = true) (st_fs s))
        (st_trace s), Ok tt).
Proof. intros H. unfold rmtree. rewrite H, Hrm_od. reflexivity. Qed.

Lemma lookup_rmtree_od (fs : gmap string kind) :
  filter (fun pk : string * kind => negb (in_tree od pk.1) = true) fs !! od = None.
Proof.
  apply map_lookup_filter_None_2. right. intros k _. simpl.
  rewrite in_tree_self. discriminate.
Qed.

Lemma lookup_rmtree_sub (fs : gmap string kind) (q : string) :
  fs !! q = None ->
  filter (fun pk : string * kind => negb (in_tree od pk.1) = true) fs !! q = None.
Proof. intros H. apply map_lookup_filter_None_2. left. exact H. Qed.

(** The [finally] block never raises, and when the deletions succeed it
    leaves neither staging path behind. *)
Lemma cleanup_removes (s s' : St) (r : res unit) :
  staging_ok ip od s ->
  cleanup env ip od s = (s', r) ->
  r = Ok tt /\ st_fs s' !! ip = None /\ st_fs s' !! od = None.
Proof.
  intros [Hip Hod] H. destruct s as [fs tr]. simpl in Hip, Hod.
  cbv [cleanup bind path_exists try_except os_remove rmtree ret print emit] in H.
  cbn [st_fs st_trace] in H.
  destruct (fs !! ip) as [[|]|] eqn:Eip; rewrite ?Eip in H; [|congruence|].
  - rewrite Hrm_ip in H. cbn [st_fs st_trace] in H.
    rewrite Eip in H. cbn [st_fs st_trace] in H.
    rewrite !lookup_delete_ne in H by congruence.
    destruct (fs !! od) as [[|]|] eqn:Eod; rewrite ?Eod in H; [congruence| |].
    + cbn [st_fs st_trace] in H. rewrite ?lookup_delete_ne, ?Eod in H by congruence.
      rewrite Hrm_od in H. injection H as <- <-. simpl. split; [reflexivity|]. split.
      * apply lookup_rmtree_sub, lookup_delete_eq.
      * apply lookup_rmtree_od.
    + injection H as <- <-. simpl. split; [reflexivity|]. split.
      * apply lookup_delete_eq.
      * rewrite lookup_delete_ne by congruence. exact Eod.
  - cbn [st_fs st_trace] in H.
    destruct (fs !! od) as [[|]|] eqn:Eod; rewrite ?Eod in H; [congruence| |].
    + cbn [st_fs st_trace] in H. rewrite ?Eod in H. rewrite Hrm_od in H. injection H as <- <-. simpl. split; [reflexivity|]. split.
      * apply lookup_rmtree_sub, Eip.
      * apply lookup_rmtree_od.
    + injection H as <- <-. simpl. auto.
Qed.

(** "Ensure clean state" succeeds and removes the input staging file and,
    when the output directory exists, its whole tree. *)
Lemma ensure_clean_ok (s : St) :
  staging_ok ip od s ->
  exists fs', ensure_clean env ip od s = (mkSt fs' (st_trace s), Ok tt) /\
    forall q, fs' !! q =
      (if String.eqb q ip then None
       else if (match st_fs s !! od with Some _ => true | None => false end)
               && in_tree od q then None
       else st_fs s !! q).
Proof.
  intros [Hip Hod]. destruct s as [fs tr]. simpl in Hip, Hod |- *.
  cbv [ensure_clean bind path_exists os_remove rmtree ret].
  assert (Eod' : delete ip fs !! od = fs !! od) by (apply lookup_delete_ne; congruence).
  destruct (fs !! ip) as [[|]|] eqn:Eip; [|congruence|];
  destruct (fs !! od) as [[|]|] eqn:Eod; try congruence;
  repeat progress (cbn [st_fs st_trace]; rewrite ?Eip, ?Eod, ?Eod', ?Hrm_ip, ?Hrm_od);
  (eexists; split; [reflexivity|]); intros q;
  rewrite ?map_lookup_filter;
  (destruct (String.eqb_spec q ip) as [->|Hq];
   [rewrite ?lookup_delete_eq, ?Eip; reflexivity|]);
  rewrite ?lookup_delete_ne by congruence; simpl;
  try reflexivity;
  destruct (fs !! q); simpl; try reflexivity;
  destruct (in_tree od q); reflexivity.
Qed.

Lemma ensure_clean_staging (s : St) :
  staging_ok ip od s ->
  exists s', ensure_clean env ip od s = (s', Ok tt) /\
    st_fs s' !! ip = None /\ st_fs s' !! od = None.
Proof.
  intros Hs. destruct (ensure_clean_ok s Hs) as (fs' & Hrun & Hq).
  exists (mkSt fs' (st_trace s)). split; [exact Hrun|]. simpl. split.
  - rewrite Hq, String.eqb_refl. reflexivity.
  - rewrite Hq, eqb_false_neq by congruence. rewrite in_tree_self.
    destruct (st_fs s !! od) eqn:E; reflexivity.
Qed.

End Cleanup.

(* ------------------------------------------------------------------ *)
(** ** The handler *)

Lemma bind_lift_ok {A B} (a : A) (k : A -> M B) (s : St) :
  bind (lift (Ok a)) k s = k a s.
Proof. reflexivity. Qed.

Lemma bind_lift_exc {A B} (m : string) (k : A -> M B) (s : St) :
  bind (lift (Exc m)) k s = (s, Exc m).
Proof. reflexivity. Qed.

Lemma process_event_parse_error (env : Env) (ev : json) (m : string) (s : St) :
  parse_record ev = Exc m -> process_event env ev s = (s, Exc m).
Proof. intros Hp. unfold process_event. rewrite Hp. apply bind_lift_exc. Qed.

Lemma process_event_rejected (env : Env) (ev b : json) (key : string) (s : St) :
  parse_record ev = Ok (b, key) -> allowed (key_ext key) = false ->
  process_event env ev s =
    (s, Ok (mkResp 400 (BStr ("Unsupported format: " +:+ key_ext key +:+ ". Allowed: "
                              +:+ set_repr (env_set_order env))))).
Proof.
  intros Hp Ha. unfold process_event. rewrite Hp, bind_lift_ok.
  cbv beta iota zeta. unfold key_ext in Ha. rewrite Ha. reflexivity.
Qed.

Lemma process_event_allowed (env : Env) (ev b : json) (key : string) (s : St) :
  parse_record ev = Ok (b, key) -> allowed (key_ext key) = true ->
  process_event env ev s =
    bind (ensure_clean env (staging_input key) (staging_output key)) (fun _ =>
      try_finally (try_except (transcode_and_upload env b key (path_stem key)) raise)
                  (cleanup env (staging_input key) (staging_output key))) s.
Proof.
  intros Hp Ha. unfold process_event. rewrite Hp, bind_lift_ok.
  cbv beta iota zeta. unfold key_ext in Ha. rewrite Ha. reflexivity.
Qed.

(** The [finally] block never raises: its failures are only logged. *)
Lemma cleanup_total (env : Env) (ip od : string) (s : St) :
  exists s', cleanup env ip od s = (s', Ok tt).
Proof.
  unfold cleanup, bind, path_exists.
  destruct (match st_fs s !! ip with Some _ => true | None => false end).
  - destruct (try_except_print_total (os_remove env ip)
                (fun e => "Warning: Failed to delete " +:+ ip +:+ ": " +:+ e) s)
      as [s1 E1].
    rewrite E1.
    destruct (match st_fs s1 !! od with Some _ => true | None => false end).
    + apply try_except_print_total.
    + eexists; reflexivity.
  - cbv [ret].
    destruct (match st_fs s !! od with Some _ => true | None => false end).
    + apply try_except_print_total.
    + eexists; reflexivity.
Qed.

(** Whatever [process_event] raises, the handler answers 500 with it. *)
Lemma lambda_handler_exc (env : Env) (ev : json) (s s1 : St) (e : string) :
  process_event env ev s = (s1, Exc e) ->
  lambda_handler env ev s =
    (mkSt (st_fs s1) (st_trace s1 ++ [EvPrint ("Error processing video: " +:+ e)])%list,
     Ok (mkResp 500 (BStr ("Error: " +:+ e)))).
Proof. intros H. unfold lambda_handler, try_except. rewrite H. reflexivity. Qed.

Lemma lambda_handler_ok (env : Env) (ev : json) (s s1 : St) (r : response) :
  process_event env ev s = (s1, Ok r) -> lambda_handler env ev s = (s1, Ok r).
Proof. intros H. unfold lambda_handler, try_except. rewrite H. reflexivity. Qed.

(** A transcode that returns has downloaded from a string bucket and
    builds the 200 response from it. *)
Lemma transcode_ok_inv (env : Env) (b : json) (key fid : string) (s s' : St) (r : response) :
  transcode_and_upload env b key fid s = (s', Ok r) ->
  exists bs files, b = JStr bs /\
    r = mkResp 200 (BObj "DASH conversion successful"
                         ("https://" +:+ bs +:+ ".s3.amazonaws.com/" +:+ ("dash/" +:+ fid)
                          +:+ "/manifest.mpd")
                         files
                         ("s3://" +:+ bs +:+ "/" +:+ ("dash/" +:+ fid) +:+ "/")).
Proof.
  unfold transcode_and_upload. intros H.
  apply bind_inv in H as [(s1 & u1 & Hd & H)|(e & _ & He)]; [|discriminate].
  destruct b as [| |bs| |]; try discriminate Hd.
  apply bind_inv in H as [(s2 & files & _ & H)|(e & _ & He)]; [|discriminate].
  apply bind_inv in H as [(s3 & fs3 & _ & H)|(e & _ & He)]; [|discriminate].
  apply bind_inv in H as [(s4 & u4 & _ & H)|(e & _ & He)]; [|discriminate].
  injection H as _ <-. exists bs, files. split; reflexivity.
Qed.

(** Every answer of [process_event] is the 400 or the 200 response. *)
Lemma process_event_ok_inv (env : Env) (ev : json) (s s' : St) (r : response) :
  process_event env ev s = (s', Ok r) ->
  exists b key, parse_record ev = Ok (b, key) /\
    ((allowed (key_ext key) = false /\ s' = s /\
      r = mkResp 400 (BStr ("Unsupported format: " +:+ key_ext key +:+ ". Allowed: "
                            +:+ set_repr (env_set_order env)))) \/
     (allowed (key_ext key) = true /\
      exists s1 s2, transcode_and_upload env b key (path_stem key) s1 = (s2, Ok r))).
Proof.
  intros H. destruct (parse_record ev) as [[b key]|m] eqn:Hp.
  2:{ rewrite (process_event_parse_error env ev m s Hp) in H. discriminate. }
  exists b, key. split; [reflexivity|].
  destruct (allowed (key_ext key)) eqn:Ha.
  - right. split; [reflexivity|].
    rewrite (process_event_allowed env ev b key s Hp Ha) in H.
    apply bind_inv in H as [(s1 & u1 & _ & H)|(e & _ & He)]; [|discriminate].
    apply try_finally_inv in H as (s2 & r1 & Ht & [(u & _ & <-)|(e & _ & He)]); [|discriminate].
    apply try_except_inv in Ht as [(a & Ht & Ha1)|(s3 & e & _ & Hr)]; [|cbv [raise] in Hr; discriminate].
    injection Ha1 as <-.
    eauto.
  - left. rewrite (process_event_rejected env ev b key s Hp Ha) in H.
    injection H as <- <-. auto.
Qed.

(** When the event passes validation and the staging paths can be
    deleted, the run goes through "ensure clean state", the inner [try]
    and the [finally] block, and the [finally] block leaves neither
    staging path behind. *)
Lemma process_event_allowed_run (env : Env) (ev b : json) (key : string) (s : St) :
  parse_record ev = Ok (b, key) -> allowed (key_ext key) = true ->
  env_rm_fails env (staging_input key) = false ->
  env_rm_fails env (staging_output key) = false ->
  staging_ok (staging_input key) (staging_output key) s ->
  exists s1 s2 r2 s3,
    ensure_clean env (staging_input key) (staging_output key) s = (s1, Ok tt) /\
    st_fs s1 !! staging_input key = None /\ st_fs s1 !! staging_output key = None /\
    try_except (transcode_and_upload env b key (path_stem key)) raise s1 = (s2, r2) /\
    cleanup env (staging_input key) (staging_output key) s2 = (s3, Ok tt) /\
    st_fs s3 !! staging_input key = None /\ st_fs s3 !! staging_output key = None /\
    process_event env ev s = (s3, r2).
Proof.
  intros Hp Ha Hri Hro Hs.
  destruct (staging_distinct (path_stem key) (key_ext key) Ha) as [Hne _].
  fold (staging_input key) (staging_output key) in Hne.
  destruct (ensure_clean_staging env _ _ Hne Hri Hro s Hs) as (s1 & E1 & L1i & L1o).
  destruct (try_except (transcode_and_upload env b key (path_stem key)) raise s1)
    as [s2 r2] eqn:E2.
  assert (Hs2 : staging_ok (staging_input key) (staging_output key) s2).
  { refine (preserves_try_except _ _ _ (preserves_transcode env b key (path_stem key) Ha)
              (fun e => preserves_raise _ e) s1 s2 r2 _ E2).
    change (staging_ok (staging_input key) (staging_output key) s1).
    unfold staging_ok. rewrite L1i, L1o. split; discriminate. }
  destruct (cleanup env (staging_input key) (staging_output key) s2) as [s3 r3] eqn:E3.
  destruct (cleanup_removes env _ _ Hne Hri Hro s2 s3 r3 Hs2 E3) as (-> & L3i & L3o).
  exists s1, s2, r2, s3. repeat split; try assumption.
  rewrite (process_event_allowed env ev b key s Hp Ha).
  unfold bind. rewrite E1. unfold try_finally. rewrite E2, E3. reflexivity.
Qed.

Lemma lambda_handler_fs (env : Env) (ev : json) (s s1 : St) (r : res response) :
  process_event env ev s = (s1, r) -> st_fs (fst (lambda_handler env ev s)) = st_fs s1.
Proof.
  intros H. destruct r as [a|e].
  - rewrite (lambda_handler_ok env ev s s1 a H). reflexivity.
  - rewrite (lambda_handler_exc env ev s s1 e H). reflexivity.
Qed.

Lemma bind_ok_step {A B} (m : M A) (k : A -> M B) (s s1 : St) (a : A) :
  m s = (s1, Ok a) -> bind m k s = k a s1.
Proof. intros H. unfold bind. rewrite H. reflexivity. Qed.

Lemma bind_exc_step {A B} (m : M A) (k : A -> M B) (s s1 : St) (e : string) :
  m s = (s1, Exc e) -> bind m k s = (s1, Exc e).
Proof. intros H. unfold bind. rewrite H. reflexivity. Qed.

(** After a successful download, a non-zero FFmpeg exit status makes the
    transcode step raise with FFmpeg's diagnostic output. *)
Lemma transcode_ffmpeg_nonzero (env : Env) (bs key : string) (s1 : St)
    (cmd : list string) (rc : Z) (err : string) (produced : list string) :
  allowed (key_ext key) = true ->
  st_fs s1 !! staging_output key = None ->
  env_download env bs key = None ->
  make_command (staging_input key) (staging_output key) RESOLUTIONS = Ok cmd ->
  env_ffmpeg env cmd = Spawned rc err produced -> rc <> 0%Z ->
  exists s2, transcode_and_upload env (JStr bs) key (path_stem key) s1 =
             (s2, Exc ("FFmpeg failed with error: " +:+ err)).
Proof.
  intros Ha Hod Hdl Hcmd Hff Hrc.
  destruct (staging_distinct (path_stem key) (key_ext key) Ha) as [Hne _].
  fold (staging_input key) (staging_output key) in Hne.
  unfold transcode_and_upload.
  change (input_path_of (path_stem key) (py_lower (path_suffix key))) with (staging_input key).
  change (output_dir_of (path_stem key)) with (staging_output key).
  set (ip := staging_input key) in *. set (od := staging_output key) in *.
  set (sd := mkSt (<[ip := File]> (st_fs s1)) (st_trace s1 ++ [EvDownload bs key ip])%list).
  assert (Hd : download_file env (JStr bs) key ip s1 = (sd, Ok tt)).
  { unfold download_file, bind, emit. rewrite Hdl. reflexivity. }
  rewrite (bind_ok_step _ _ _ _ _ Hd).
  set (sm := mkSt (<[od := Dir]> (st_fs sd)) (st_trace sd)).
  assert (Hm : mkdir od sd = (sm, Ok tt)).
  { unfold mkdir. simpl. rewrite lookup_insert_ne by congruence. rewrite Hod. reflexivity. }
  eexists. apply bind_exc_step. unfold run_ffmpeg_dash.
  rewrite (bind_ok_step _ _ _ _ _ Hm).
  unfold bind at 1, emit at 1.
  rewrite Hcmd, bind_lift_ok.
  unfold subprocess_run, bind at 1, emit at 1. rewrite Hff.
  unfold bind at 1, set_fs, ret. cbn [fst snd].
  apply Z.eqb_neq in Hrc. unfold bind. simpl. rewrite Hrc. reflexivity.
Qed.

(** ** The rejection message *)

Lemma append_empty_r (s : string) : s +:+ "" = s.
Proof. induction s as [|c s IH]; [reflexivity | rewrite append_cons, IH; reflexivity]. Qed.

Lemma concat_in (sep e : string) (l : list string) :
  In e l -> exists pre post, String.concat sep l = pre +:+ e +:+ post.
Proof.
  induction l as [|x l IH]; [intros []|].
  intros [->|Hin].
  - destruct l as [|y l].
    + exists "", "". simpl. rewrite append_empty_r. reflexivity.
    + exists "", (sep +:+ String.concat sep (y :: l)). reflexivity.
  - destruct (IH Hin) as (pre & post & E).
    destruct l as [|y l]; [destruct Hin|].
    exists (x +:+ sep +:+ pre), post.
    change (String.concat sep (x :: y :: l)) with (x +:+ sep +:+ String.concat sep (y :: l)).
    rewrite E, !append_assoc_str. reflexivity.
Qed.

Lemma set_repr_mentions (order : list string) (e : string) :
  In e order -> exists pre post, set_repr order = pre +:+ "'" +:+ e +:+ "'" +:+ post.
Proof.
  intros Hin.
  destruct (concat_in ", " ("'" +:+ e +:+ "'") (map (fun e => "'" +:+ e +:+ "'") order))
    as (pre & post & E).
  { apply in_map_iff. eauto. }
  exists ("{" +:+ pre), (post +:+ "}"). unfold set_repr. rewrite E.
  rewrite !append_assoc_str. reflexivity.
Qed.

Lemma allowed_false (ext : string) :
  ~ In ext [".mp4"; ".mkv"; ".mov"; ".avi"; ".webm"] -> allowed ext = false.
Proof.
  intros Hn. destruct (allowed ext) eqn:E; [|reflexivity].
  exfalso. apply Hn. unfold allowed in E. apply existsb_exists in E as (x & Hx & Ex).
  apply String.eqb_eq in Ex. subst x. exact Hx.
Qed.

(** ** Reading the event *)

Lemma res_bind_ok {A B} (r : res A) (f : A -> res B) (b : B) :
  res_bind r f = Ok b -> exists a, r = Ok a /\ f a = Ok b.
Proof. destruct r as [a|m]; simpl; [eauto | discriminate]. Qed.

Lemma getitem_str_ok (j : json) (k : string) (v : json) :
  getitem_str j k = Ok v -> field j k = Some v.
Proof.
  destruct j as [| | | |kvs]; simpl; try discriminate.
  destruct (assoc k kvs); congruence.
Qed.

Lemma getitem_0_ok (j v : json) :
  getitem_0 j = Ok v -> (exists rest, j = JList (v :: rest)) \/ (exists c, j = JStr c).
Proof.
  destruct j as [| |c|[|x rest]|]; simpl; try discriminate; eauto.
  intros [= ->]. eauto.
Qed.

(** A parsed event has its records list and both fields of its first
    record. *)
Lemma parse_record_fields (ev b : json) (key : string) :
  parse_record ev = Ok (b, key) ->
  exists rs,
    field ev "Records" = Some rs /\ rs <> JList [] /\
    forall record rest, rs = JList (record :: rest) ->
      lookup_path record ["s3"; "bucket"; "name"] = Some b /\
      exists rawkey, lookup_path record ["s3"; "object"; "key"] = Some rawkey.
Proof.
  unfold parse_record. intros H.
  apply res_bind_ok in H as (rs & H1 & H).
  apply res_bind_ok in H as (record & H2 & H).
  apply res_bind_ok in H as (s3r & H3 & H).
  apply res_bind_ok in H as (bk & H4 & H).
  apply res_bind_ok in H as (bucket & H5 & H).
  apply res_bind_ok in H as (s3r' & H6 & H).
  apply res_bind_ok in H as (o & H7 & H).
  apply res_bind_ok in H as (rawkey & H8 & H).
  apply res_bind_ok in H as (key' & H9 & H).
  injection H as -> ->.
  exists rs. split; [apply getitem_str_ok; exact H1|]. split.
  - intros ->. discriminate.
  - intros record' rest ->. simpl in H2. injection H2 as ->.
    apply getitem_str_ok in H3, H4, H5, H6, H7, H8.
    rewrite H6 in H3. injection H3 as ->.
    simpl. rewrite H6, H4, H5, H7, H8. eauto.
Qed.

(** ** Leftover staging state *)

(** With deletable leftovers, "ensure clean state" turns a state holding
    the leftovers of a crashed run into the clean one. *)
Lemma ensure_clean_leftover (env : Env) (ip od : string)
    (left fs : gmap string kind) (tr : list event) :
  ip <> od -> in_tree od ip = false ->
  env_rm_fails env ip = false -> env_rm_fails env od = false ->
  fs !! ip = None -> (forall q, in_tree od q = true -> fs !! q = None) ->
  (forall q k, left !! q = Some k ->
     (q = ip /\ k = File) \/ (in_tree od q = true /\ left !! od = Some Dir)) ->
  ensure_clean env ip od (mkSt (left ∪ fs) tr) = (mkSt fs tr, Ok tt).
Proof.
  intros Hne Hnt Hri Hro Hip Hcl Hleft.
  assert (Hs : staging_ok ip od (mkSt (left ∪ fs) tr)).
  { split; cbn [st_fs]; intros H; apply lookup_union_Some_raw in H as [H|[_ H]].
    - destruct (Hleft _ _ H) as [[_ ?]|[Ht _]]; [discriminate | congruence].
    - congruence.
    - destruct (Hleft _ _ H) as [[? _]|[_ ?]]; congruence.
    - rewrite (Hcl od (in_tree_self od)) in H. discriminate. }
  destruct (ensure_clean_ok env ip od Hne Hri Hro _ Hs) as (fs' & Hrun & Hq).
  rewrite Hrun. do 2 f_equal. apply map_eq. intros q. rewrite Hq. simpl.
  destruct (String.eqb_spec q ip) as [->|Hqi]; [symmetry; exact Hip|].
  destruct ((left ∪ fs) !! od) as [kod|] eqn:Eod;
  destruct (in_tree od q) eqn:Et; simpl;
  try (symmetry; apply Hcl; exact Et);
  apply lookup_union_r; destruct (left !! q) as [k|] eqn:El; try reflexivity;
  destruct (Hleft _ _ El) as [[? _]|[Ht Hd]]; try congruence.
  rewrite lookup_union_l' in Eod by (rewrite Hd; eauto).
  congruence.
Qed.

(** "Ensure clean state" consults the environment's deletion behaviour
    only for the staging paths that exist. *)
Lemma ensure_clean_env_agree (env env' : Env) (ip od : string) (s : St) :
  ip <> od ->
  (st_fs s !! ip <> None -> env_rm_fails env ip = env_rm_fails env' ip) ->
  (st_fs s !! od <> None -> env_rm_fails env od = env_rm_fails env' od) ->
  ensure_clean env ip od s = ensure_clean env' ip od s.
Proof.
  intros Hne Ai Ao. destruct s as [fs tr]. cbn [st_fs] in Ai, Ao.
  assert (Eod' : delete ip fs !! od = fs !! od) by (apply lookup_delete_ne; congruence).
  cbv [ensure_clean bind path_exists os_remove rmtree ret].
  destruct (fs !! ip) as [[|]|] eqn:Eip; destruct (fs !! od) as [[|]|] eqn:Eod;
    repeat progress (cbn [st_fs st_trace]; rewrite ?Eip, ?Eod, ?Eod');
    rewrite ?Ai, ?Ao by congruence; try reflexivity;
    destruct (env_rm_fails env' ip);
    repeat progress (cbn [st_fs st_trace]; rewrite ?Eip, ?Eod, ?Eod');
    rewrite ?Ao by congruence; reflexivity.
Qed.

(** With leftovers that can be deleted, "ensure clean state" turns a
    state holding the leftovers of a crashed run into the clean one; a
    staging path that is not left over need not be deletable. *)
Lemma ensure_clean_leftover_any (env : Env) (ip od : string)
    (left fs : gmap string kind) (tr : list event) :
  ip <> od -> in_tree od ip = false ->
  (left !! ip <> None -> env_rm_fails env ip = false) ->
  (left !! od <> None -> env_rm_fails env od = false) ->
  fs !! ip = None -> (forall q, in_tree od q = true -> fs !! q = None) ->
  (forall q k, left !! q = Some k ->
     (q = ip /\ k = File) \/ (in_tree od q = true /\ left !! od = Some Dir)) ->
  ensure_clean env ip od (mkSt (left ∪ fs) tr) = (mkSt fs tr, Ok tt).
Proof.
  intros Hne Hnt Hri Hro Hip Hcl Hleft.
  set (env' := mkEnv (env_download env) (env_download_partial env) (env_ffmpeg env)
                     (env_upload env)
                     (fun p => if String.eqb p ip then false
                               else if String.eqb p od then false else env_rm_fails env p)
                     (env_set_order env)).
  assert (Hod : fs !! od = None) by exact (Hcl od (in_tree_self od)).
  rewrite (ensure_clean_env_agree env env' ip od _ Hne).
  - apply (ensure_clean_leftover env' ip od left fs tr); try assumption;
      cbn [env' env_rm_fails]; rewrite ?String.eqb_refl; [reflexivity|].
    rewrite eqb_false_neq by congruence. reflexivity.
  - cbn [st_fs env' env_rm_fails]. rewrite String.eqb_refl. intros H. apply Hri.
    intros E. apply H. rewrite lookup_union_r by exact E. exact Hip.
  - cbn [st_fs env' env_rm_fails]. rewrite String.eqb_refl, eqb_false_neq by congruence.
    intros H. apply Hro. intros E. apply H. rewrite lookup_union_r by exact E. exact Hod.
Qed.

(** An exception of the inner [try] is re-raised after the [finally]
    block, and so reaches the handler's boundary. *)
Lemma process_event_transcode_exc (env : Env) (ev b : json) (key : string) (s s1 s2 : St)
    (e : string) :
  parse_record ev = Ok (b, key) -> allowed (key_ext key) = true ->
  ensure_clean env (staging_input key) (staging_output key) s = (s1, Ok tt) ->
  transcode_and_upload env b key (path_stem key) s1 = (s2, Exc e) ->
  exists s3, process_event env ev s = (s3, Exc e).
Proof.
  intros Hp Ha E1 E2.
  destruct (cleanup_total env (staging_input key) (staging_output key) s2) as [s3 E3].
  exists s3. rewrite (process_event_allowed env ev b key s Hp Ha).
  rewrite (bind_ok_step _ _ _ _ _ E1).
  unfold try_finally, try_except. rewrite E2. cbv [raise]. rewrite E3. reflexivity.
Qed.

(* ------------------------------------------------------------------ *)
(** ** The properties *)

(** C1 (amended): the cleanup invariant holds where the deletions can be
    done. A malformed event leaves the filesystem as it was; an event whose
    extension is rejected leaves the whole state as it was; an accepted
    event whose staging paths can be deleted (the environment lets both
    be deleted, the input path is not a directory and the output path is
    not a regular file) leaves neither staging path behind. *)
Theorem lambda_handler_staging_cleanup (env : Env) (ev : json) (s : St) :
  (forall m, parse_record ev = Exc m -> st_fs (fst (lambda_handler env ev s)) = st_fs s) /\
  (forall b key, parse_record ev = Ok (b, key) -> allowed (key_ext key) = false ->
     fst (lambda_handler env ev s) = s) /\
  (forall b key, parse_record ev = Ok (b, key) -> allowed (key_ext key) = true ->
     env_rm_fails env (staging_input key) = false ->
     env_rm_fails env (staging_output key) = false ->
     staging_ok (staging_input key) (staging_output key) s ->
     st_fs (fst (lambda_handler env ev s)) !! staging_input key = None /\
     st_fs (fst (lambda_handler env ev s)) !! staging_output key = None).
Proof.
  split; [|split].
  - intros m Hp.
    exact (lambda_handler_fs env ev s s (Exc m) (process_event_parse_error env ev m s Hp)).
  - intros b key Hp Ha.
    rewrite (lambda_handler_ok env ev s s _ (process_event_rejected env ev b key s Hp Ha)).
    reflexivity.
  - intros b key Hp Ha Hri Hro Hs.
    destruct (process_event_allowed_run env ev b key s Hp Ha Hri Hro Hs)
      as (s1 & s2 & r2 & s3 & _ & _ & _ & _ & _ & L3i & L3o & E).
    rewrite (lambda_handler_fs env ev s s3 r2 E). auto.
Qed.

Lemma lambda_handler_staging_cleanup_witness :
  st_fs (fst (lambda_handler env_ok ev_upload st_empty)) !! "/tmp/clip.mp4" = None /\
  st_fs (fst (lambda_handler env_ok ev_upload st_empty)) !! "/tmp/clip_dash_output" = None.
Proof.
  destruct (lambda_handler_staging_cleanup env_ok ev_upload st_empty) as (_ & _ & H).
  apply (H (JStr "uploads") "videos/clip.MP4").
  - vm_compute. reflexivity.
  - vm_compute. reflexivity.
  - vm_compute. reflexivity.
  - vm_compute. reflexivity.
  - split; vm_compute; discriminate.
Defined.

(** C1: when the staged input file cannot be deleted, a successful run
    leaves it on the filesystem. *)
Lemma lambda_handler_staging_cleanup_counterexample :
  snd (lambda_handler env_locked ev_upload st_empty) =
    Ok (mkResp 200 (BObj "DASH conversion successful"
                         "https://uploads.s3.amazonaws.com/dash/clip/manifest.mpd"
                         ["manifest.mpd"; "init_0.m4s"] "s3://uploads/dash/clip/")) /\
  st_fs (fst (lambda_handler env_locked ev_upload st_empty)) !! staging_input "videos/clip.MP4"
    = Some File.
Proof. split; vm_compute; reflexivity. Qed.

(** A pre-clean that returns leaves no output directory behind. *)
Lemma ensure_clean_od_gone (env : Env) (ip od : string) (s s1 : St) :
  ensure_clean env ip od s = (s1, Ok tt) -> st_fs s1 !! od = None.
Proof.
  intros H. unfold ensure_clean in H.
  apply bind_inv in H as [(sa & e1 & Ha & H)|(e & _ & He)]; [|discriminate].
  apply bind_inv in H as [(sb & u & Hb & H)|(e & _ & He)]; [|discriminate].
  apply bind_inv in H as [(sc & e2 & Hc & H)|(e & _ & He)]; [|discriminate].
  unfold path_exists in Hc. injection Hc as <- <-.
  destruct (st_fs sb !! od) as [k|] eqn:E.
  - unfold rmtree in H. rewrite E in H. destruct k; [discriminate|].
    destruct (env_rm_fails env od); [discriminate|]. injection H as <-.
    cbn [st_fs]. rewrite map_lookup_filter, E. simpl.
    rewrite option_guard_False; [reflexivity|].
    rewrite in_tree_self. discriminate.
  - injection H as <-. exact E.
Qed.

(** C2: the handler never raises. Every run returns a response with
    status 200, 400 or 500; an exception of the event processing becomes a
    500 response whose body is ["Error: "] followed by the message; an
    exception of the download, transcode or upload steps is such an
    exception; and a non-zero FFmpeg exit status yields the 500 body
    ["Error: FFmpeg failed with error: "] followed by FFmpeg's stderr. *)
Theorem lambda_handler_never_raises (env : Env) (ev : json) (s : St) :
  (exists s' r, lambda_handler env ev s = (s', Ok r) /\
     (statusCode r = 200 \/ statusCode r = 400 \/ statusCode r = 500)%Z) /\
  (forall s1 e, process_event env ev s = (s1, Exc e) ->
     exists s', lambda_handler env ev s = (s', Ok (mkResp 500 (BStr ("Error: " +:+ e))))) /\
  (forall b key s1 s2 e, parse_record ev = Ok (b, key) -> allowed (key_ext key) = true ->
     ensure_clean env (staging_input key) (staging_output key) s = (s1, Ok tt) ->
     transcode_and_upload env b key (path_stem key) s1 = (s2, Exc e) ->
     exists s', lambda_handler env ev s = (s', Ok (mkResp 500 (BStr ("Error: " +:+ e))))) /\
  (forall bs key s1 cmd rc err produced,
     parse_record ev = Ok (JStr bs, key) -> allowed (key_ext key) = true ->
     ensure_clean env (staging_input key) (staging_output key) s = (s1, Ok tt) ->
     env_download env bs key = None ->
     make_command (staging_input key) (staging_output key) RESOLUTIONS = Ok cmd ->
     env_ffmpeg env cmd = Spawned rc err produced -> rc <> 0%Z ->
     exists s', lambda_handler env ev s =
       (s', Ok (mkResp 500 (BStr ("Error: " +:+ ("FFmpeg failed with error: " +:+ err)))))).
Proof.
  split; [|split; [|split]].
  - destruct (process_event env ev s) as [s1 [r|e]] eqn:E.
    + exists s1, r. split; [exact (lambda_handler_ok env ev s s1 r E)|].
      apply process_event_ok_inv in E
        as (b & key & _ & [(_ & _ & ->)|(_ & s0 & s2 & Ht)]).
      * right; left; reflexivity.
      * apply transcode_ok_inv in Ht as (bs & files & _ & ->). left; reflexivity.
    + eexists _, _. split; [exact (lambda_handler_exc env ev s s1 e E)|].
      right; right; reflexivity.
  - intros s1 e E. eexists. exact (lambda_handler_exc env ev s s1 e E).
  - intros b key s1 s2 e Hp Ha E1 E2.
    destruct (process_event_transcode_exc env ev b key s s1 s2 e Hp Ha E1 E2) as [s3 E].
    eexists. exact (lambda_handler_exc env ev s s3 e E).
  - intros bs key s1 cmd rc err produced Hp Ha E1 Hdl Hcmd Hff Hrc.
    pose proof (ensure_clean_od_gone env _ _ s s1 E1) as L1o.
    destruct (transcode_ffmpeg_nonzero env bs key s1 cmd rc err produced Ha L1o Hdl Hcmd Hff Hrc)
      as [s2 E2].
    destruct (process_event_transcode_exc env ev (JStr bs) key s s1 s2 _ Hp Ha E1 E2) as [s3 E].
    eexists. exact (lambda_handler_exc env ev s s3 _ E).
Qed.

Lemma lambda_handler_never_raises_witness :
  exists s', lambda_handler
               (mkEnv (fun _ _ => None) false
                      (fun _ => Spawned 1 "Invalid data found when processing input" [])
                      (fun _ _ => None) (fun p => String.eqb p "/tmp/clip.mp4")
                      ALLOWED_EXTENSIONS)
               ev_upload st_empty =
    (s', Ok (mkResp 500 (BStr ("Error: " +:+ ("FFmpeg failed with error: " +:+
                                 "Invalid data found when processing input"))))).
Proof.
  destruct (make_command (staging_input "videos/clip.MP4") (staging_output "videos/clip.MP4")
              RESOLUTIONS) as [cmd|m] eqn:Ec.
  2:{ vm_compute in Ec. discriminate. }
  destruct (lambda_handler_never_raises
              (mkEnv (fun _ _ => None) false
                     (fun _ => Spawned 1 "Invalid data found when processing input" [])
                     (fun _ _ => None) (fun p => String.eqb p "/tmp/clip.mp4")
                     ALLOWED_EXTENSIONS)
              ev_upload st_empty) as (_ & _ & _ & H).
  apply (H "uploads" "videos/clip.MP4" st_empty cmd 1%Z
           "Invalid data found when processing input" []).
  - vm_compute. reflexivity.
  - vm_compute. reflexivity.
  - vm_compute. reflexivity.
  - vm_compute. reflexivity.
  - exact Ec.
  - vm_compute. reflexivity.
  - discriminate.
Defined.

(** C3 (code bug): the [output_prefix] of a successful run names the
    source bucket of the event, while every artifact is uploaded to the
    destination bucket [manifestdatabucket]. *)
Theorem output_prefix_names_source_bucket :
  snd (lambda_handler env_ok ev_upload st_empty) =
    Ok (mkResp 200 (BObj "DASH conversion successful"
                         "https://uploads.s3.amazonaws.com/dash/clip/manifest.mpd"
                         ["manifest.mpd"; "init_0.m4s"] "s3://uploads/dash/clip/")) /\
  In (EvUpload "/tmp/clip_dash_output/manifest.mpd" "manifestdatabucket"
               "dash/clip/manifest.mpd" "application/dash+xml")
     (st_trace (fst (lambda_handler env_ok ev_upload st_empty))) /\
  Forall (fun e => match e with EvUpload _ bkt _ _ => bkt = "manifestdatabucket" | _ => True end)
         (st_trace (fst (lambda_handler env_ok ev_upload st_empty))).
Proof.
  split; [vm_compute; reflexivity|]. split.
  - vm_compute. tauto.
  - vm_compute. repeat constructor.
Qed.

(** C4: a 200 response's [manifest_url] is
    [https://{bucket}.s3.amazonaws.com/dash/{stem}/manifest.mpd] with the
    bucket name of the event record. *)
Theorem lambda_handler_manifest_url (env : Env) (ev : json) (s s' : St) (r : response) :
  lambda_handler env ev s = (s', Ok r) -> statusCode r = 200%Z ->
  exists bucket key files prefix,
    parse_record ev = Ok (JStr bucket, key) /\
    body r = BObj "DASH conversion successful"
               ("https://" +:+ bucket +:+ ".s3.amazonaws.com/dash/" +:+ path_stem key
                +:+ "/manifest.mpd")
               files prefix.
Proof.
  intros H H200. unfold lambda_handler, try_except in H.
  destruct (process_event env ev s) as [s1 [a|e]] eqn:E.
  - injection H as <- <-.
    apply process_event_ok_inv in E as (b & key & Hp & [(_ & _ & ->)|(_ & s0 & s2 & Ht)]).
    + discriminate H200.
    + apply transcode_ok_inv in Ht as (bs & files & -> & ->).
      exists bs, key, files; eexists. split; [exact Hp|]. simpl.
      rewrite append_assoc_str. reflexivity.
  - cbv [bind print emit ret] in H. injection H as _ <-. discriminate H200.
Qed.

Lemma lambda_handler_manifest_url_witness :
  exists bucket key files prefix,
    parse_record ev_upload = Ok (JStr bucket, key) /\
    BObj "DASH conversion successful"
         "https://uploads.s3.amazonaws.com/dash/clip/manifest.mpd"
         ["manifest.mpd"; "init_0.m4s"] "s3://uploads/dash/clip/" =
    BObj "DASH conversion successful"
         ("https://" +:+ bucket +:+ ".s3.amazonaws.com/dash/" +:+ path_stem key
          +:+ "/manifest.mpd")
         files prefix.
Proof.
  apply (lambda_handler_manifest_url env_ok ev_upload st_empty
           (fst (lambda_handler env_ok ev_upload st_empty))
           (mkResp 200 (BObj "DASH conversion successful"
                         "https://uploads.s3.amazonaws.com/dash/clip/manifest.mpd"
                         ["manifest.mpd"; "init_0.m4s"] "s3://uploads/dash/clip/"))).
  - vm_compute. reflexivity.
  - reflexivity.
Defined.

(** C5: an event whose extension is not one of [.mp4], [.mkv], [.mov],
    [.avi], [.webm] gets the 400 response naming the extension and the
    allowed set, and leaves the state (filesystem and trace of calls)
    unchanged: no download, no other effect. When the set prints its
    elements in some order, each allowed extension appears in the body. *)
Theorem lambda_handler_rejects_extension (env : Env) (ev b : json) (key : string) (s : St) :
  parse_record ev = Ok (b, key) ->
  ~ In (key_ext key) [".mp4"; ".mkv"; ".mov"; ".avi"; ".webm"] ->
  lambda_handler env ev s =
    (s, Ok (mkResp 400 (BStr ("Unsupported format: " +:+ key_ext key +:+ ". Allowed: "
                              +:+ set_repr (env_set_order env))))) /\
  (Permutation (env_set_order env) ALLOWED_EXTENSIONS ->
   forall e, In e [".mp4"; ".mkv"; ".mov"; ".avi"; ".webm"] ->
   exists pre post, set_repr (env_set_order env) = pre +:+ "'" +:+ e +:+ "'" +:+ post).
Proof.
  intros Hp Hn. split.
  - apply lambda_handler_ok. apply (process_event_rejected env ev b key s Hp).
    apply allowed_false. exact Hn.
  - intros Hperm e He. apply set_repr_mentions.
    apply (Permutation_in e (Permutation_sym Hperm)). exact He.
Qed.

Lemma lambda_handler_rejects_extension_witness :
  lambda_handler env_ok ev_text st_empty =
    (st_empty, Ok (mkResp 400 (BStr ("Unsupported format: " +:+ ".txt" +:+ ". Allowed: "
                                     +:+ set_repr ALLOWED_EXTENSIONS)))).
Proof.
  destruct (lambda_handler_rejects_extension env_ok ev_text (JStr "uploads") "notes/clip.txt"
              st_empty) as [H _].
  - vm_compute. reflexivity.
  - vm_compute. intuition discriminate.
  - exact H.
Defined.

Lemma make_command_maps_and_filters_witness :
  exists cmd,
    make_command "/tmp/clip.mp4" "/tmp/clip_dash_output" RESOLUTIONS = Ok cmd /\
    List.filter is_video_label (map_targets cmd) = ["[v0]"; "[v1]"; "[v2]"; "[v3]"] /\
    List.filter is_audio_label (map_targets cmd) = ["[a0]"; "[a1]"; "[a2]"; "[a3]"].
Proof.
  destruct (make_command_maps_and_filters "/tmp/clip.mp4" "/tmp/clip_dash_output" RESOLUTIONS)
    as (cmd & E & Hv & Ha & _).
  - discriminate.
  - exists cmd. split; [exact E|]. rewrite Hv, Ha. split; vm_compute; reflexivity.
Defined.

Lemma make_command_output_params_witness :
  exists cmd,
    make_command "/tmp/clip.mp4" "/tmp/clip_dash_output" RESOLUTIONS = Ok cmd /\
    exists pre post, cmd = (pre ++
      ["-c:v:1"; "libx264"; "-crf:1"; "23"; "-preset:1"; "fast";
       "-b:v:1"; "854k"; "-maxrate:1"; "854k"; "-bufsize:1"; "1708k";
       "-c:a:1"; "aac"; "-b:a:1"; "96k"] ++ post)%list.
Proof.
  destruct (make_command_output_params "/tmp/clip.mp4" "/tmp/clip_dash_output"
              RESOLUTIONS 1 854 480) as (cmd & E & pre & post & Hc).
  - reflexivity.
  - exists cmd. split; [exact E|]. exists pre, post. rewrite Hc. vm_compute. reflexivity.
Defined.

(** C9 (amended): when the leftovers of a crashed run can be deleted (the
    leftovers are the input staging file and the output staging directory
    with its tree, and the environment lets each staging path that is left
    over be deleted), the run gives the same response and the same final
    state as a run from the clean filesystem. *)
Theorem lambda_handler_leftover_idempotent (env : Env) (ev b : json) (key : string)
    (left fs : gmap string kind) (tr : list event) :
  parse_record ev = Ok (b, key) -> allowed (key_ext key) = true ->
  (left !! staging_input key <> None -> env_rm_fails env (staging_input key) = false) ->
  (left !! staging_output key <> None -> env_rm_fails env (staging_output key) = false) ->
  fs !! staging_input key = None ->
  (forall q, in_tree (staging_output key) q = true -> fs !! q = None) ->
  (forall q k, left !! q = Some k ->
     (q = staging_input key /\ k = File) \/
     (in_tree (staging_output key) q = true /\ left !! staging_output key = Some Dir)) ->
  lambda_handler env ev (mkSt (left ∪ fs) tr) = lambda_handler env ev (mkSt fs tr).
Proof.
  intros Hp Ha Hri Hro Hip Hcl Hleft.
  destruct (staging_distinct (path_stem key) (key_ext key) Ha) as [Hne Hnt].
  assert (Ed := ensure_clean_leftover_any env _ _ left fs tr Hne Hnt Hri Hro Hip Hcl Hleft).
  assert (Ec : ensure_clean env (staging_input key) (staging_output key) (mkSt fs tr) =
               (mkSt fs tr, Ok tt)).
  { rewrite <- (left_id_L ∅ (∪) fs) at 1.
    apply ensure_clean_leftover_any; try assumption;
      [intros H; contradiction H; apply lookup_empty
      |intros H; contradiction H; apply lookup_empty
      |intros q k Hk; rewrite lookup_empty in Hk; discriminate]. }
  assert (E : process_event env ev (mkSt (left ∪ fs) tr) = process_event env ev (mkSt fs tr)).
  { rewrite !(process_event_allowed env ev b key _ Hp Ha).
    rewrite (bind_ok_step _ _ _ _ _ Ed), (bind_ok_step _ _ _ _ _ Ec). reflexivity. }
  unfold lambda_handler, try_except. rewrite E. reflexivity.
Qed.

Lemma lambda_handler_leftover_idempotent_witness :
  lambda_handler env_ok ev_upload (mkSt (leftover_input ∪ ∅) []) =
  lambda_handler env_ok ev_upload (mkSt ∅ []).
Proof.
  apply (lambda_handler_leftover_idempotent env_ok ev_upload (JStr "uploads") "videos/clip.MP4").
  - vm_compute. reflexivity.
  - vm_compute. reflexivity.
  - vm_compute. reflexivity.
  - vm_compute. reflexivity.
  - apply lookup_empty.
  - intros q _. apply lookup_empty.
  - intros q k Hk. left. unfold leftover_input in Hk.
    apply lookup_singleton_Some in Hk as [<- <-]. split; vm_compute; reflexivity.
Defined.

(** C9: a leftover input file that cannot be deleted makes the pre-run
    clean-up raise, so the run answers 500 where the clean run answers 200. *)
Lemma lambda_handler_leftover_counterexample :
  snd (lambda_handler env_locked ev_upload (mkSt (leftover_input ∪ ∅) [])) =
    Ok (mkResp 500 (BStr "Error: [Errno 1] Operation not permitted: '/tmp/clip.mp4'")) /\
  snd (lambda_handler env_locked ev_upload (mkSt ∅ [])) =
    Ok (mkResp 200 (BObj "DASH conversion successful"
                         "https://uploads.s3.amazonaws.com/dash/clip/manifest.mpd"
                         ["manifest.mpd"; "init_0.m4s"] "s3://uploads/dash/clip/")).
Proof. split; vm_compute; reflexivity. Qed.

(** C10: an event without [Records], with an empty records list, or whose
    first record lacks the bucket name or the object key fails to parse;
    the handler catches the lookup error, logs it, leaves the filesystem
    unchanged and returns the 500 response ["Error: "] followed by the
    message (not the 400 response). *)
Theorem lambda_handler_malformed_event (env : Env) (ev : json) (s : St) :
  malformed_event ev ->
  exists m, parse_record ev = Exc m /\
    lambda_handler env ev s =
      (mkSt (st_fs s) (st_trace s ++ [EvPrint ("Error processing video: " +:+ m)])%list,
       Ok (mkResp 500 (BStr ("Error: " +:+ m)))).
Proof.
  intros Hmal. destruct (parse_record ev) as [[b key]|m] eqn:Hp.
  - exfalso. apply parse_record_fields in Hp as (rs & Hf & Hne & Hrec).
    destruct Hmal as [H|[H|(record & rest & H & Hmiss)]]; rewrite Hf in H.
    + discriminate.
    + injection H as ->. contradiction.
    + injection H as ->. destruct (Hrec record rest eq_refl) as [Hb [rk Hk]].
      destruct Hmiss; congruence.
  - exists m. split; [reflexivity|].
    apply lambda_handler_exc. apply process_event_parse_error. exact Hp.
Qed.

Lemma lambda_handler_malformed_event_witness :
  exists m, parse_record (JObj []) = Exc m /\
    lambda_handler env_ok (JObj []) st_empty =
      (mkSt (st_fs st_empty) (st_trace st_empty ++ [EvPrint ("Error processing video: " +:+ m)])%list,
       Ok (mkResp 500 (BStr ("Error: " +:+ m)))).
Proof.
  apply (lambda_handler_malformed_event env_ok (JObj []) st_empty).
  left. reflexivity.
Defined.

(* ------------------------------------------------------------------ *)
(** ** The upload loop *)

(** When every upload succeeds, the loop uploads the files in order, each
    to [{dash_prefix}/{name}] with the content type of its suffix, and
    leaves the filesystem alone. *)
Theorem upload_all_uploads_each_file (env : Env) (od bkt pre : string)
    (files : list string) (s : St) :
  (forall n, In n files -> env_upload env bkt (pre +:+ "/" +:+ n) = None) ->
  upload_all env od bkt pre files s =
    (mkSt (st_fs s) (st_trace s ++ map (upload_event od bkt pre) files)%list, Ok tt).
Proof.
  revert s. induction files as [|n files IH]; intros s Hok.
  - destruct s. simpl. rewrite app_nil_r. reflexivity.
  - simpl. unfold bind at 1, emit. simpl.
    rewrite (Hok n (or_introl eq_refl)).
    rewrite IH by (intros m Hm; apply Hok; right; exact Hm). simpl.
    rewrite <- app_assoc. reflexivity.
Qed.

Lemma upload_all_uploads_each_file_witness :
  upload_all env_ok "/tmp/clip_dash_output" "manifestdatabucket" "dash/clip"
             ["manifest.mpd"; "init_0.m4s"] st_empty =
    (mkSt empty
       [EvUpload "/tmp/clip_dash_output/manifest.mpd" "manifestdatabucket"
                 "dash/clip/manifest.mpd" "application/dash+xml";
        EvUpload "/tmp/clip_dash_output/init_0.m4s" "manifestdatabucket"
                 "dash/clip/init_0.m4s" "video/mp4"], Ok tt).
Proof.
  rewrite (upload_all_uploads_each_file env_ok "/tmp/clip_dash_output" "manifestdatabucket"
             "dash/clip" ["manifest.mpd"; "init_0.m4s"] st_empty).
  - vm_compute. reflexivity.
  - intros n _. reflexivity.
Defined.

(** The first failed upload ends the loop with its error: the files
    before it are uploaded, the ones after it are never attempted. *)
Theorem upload_all_stops_at_first_failure (env : Env) (od bkt pre : string)
    (done rest : list string) (n msg : string) (s : St) :
  (forall m, In m done -> env_upload env bkt (pre +:+ "/" +:+ m) = None) ->
  env_upload env bkt (pre +:+ "/" +:+ n) = Some msg ->
  upload_all env od bkt pre (done ++ n :: rest) s =
    (mkSt (st_fs s) (st_trace s ++ map (upload_event od bkt pre) (done ++ [n]))%list, Exc msg).
Proof.
  revert s. induction done as [|m done IH]; intros s Hok Hn.
  - simpl. unfold bind, emit. simpl. rewrite Hn. reflexivity.
  - simpl. unfold bind at 1, emit. simpl.
    rewrite (Hok m (or_introl eq_refl)).
    rewrite IH by (try (intros m' Hm'; apply Hok; right; exact Hm'); exact Hn). simpl.
    rewrite <- app_assoc. reflexivity.
Qed.

Lemma upload_all_stops_at_first_failure_witness :
  upload_all
    (mkEnv (fun _ _ => None) false (fun _ => SpawnFailed "") (fun _ k =>
       if String.eqb k "dash/clip/init_0.m4s" then Some "AccessDenied" else None)
       (fun _ => false) ALLOWED_EXTENSIONS)
    "/tmp/clip_dash_output" "manifestdatabucket" "dash/clip"
    ["manifest.mpd"; "init_0.m4s"; "segment_0_1.m4s"] st_empty =
  (mkSt empty
     [EvUpload "/tmp/clip_dash_output/manifest.mpd" "manifestdatabucket"
               "dash/clip/manifest.mpd" "application/dash+xml";
      EvUpload "/tmp/clip_dash_output/init_0.m4s" "manifestdatabucket"
               "dash/clip/init_0.m4s" "video/mp4"], Exc "AccessDenied").
Proof.
  rewrite (upload_all_stops_at_first_failure _ "/tmp/clip_dash_output" "manifestdatabucket"
             "dash/clip" ["manifest.mpd"] ["segment_0_1.m4s"] "init_0.m4s" "AccessDenied"
             st_empty).
  - vm_compute. reflexivity.
  - intros m [<-|[]]. reflexivity.
  - reflexivity.
Defined.

(** A loop that returns normally uploaded every file, in order. *)
Lemma upload_all_ok_inv (env : Env) (od bkt pre : string) (files : list string)
    (s s' : St) (u : unit) :
  upload_all env od bkt pre files s = (s', Ok u) ->
  st_fs s' = st_fs s /\
  st_trace s' = (st_trace s ++ map (upload_event od bkt pre) files)%list.
Proof.
  revert s. induction files as [|n files IH]; intros s H.
  - injection H as <- _. rewrite app_nil_r. auto.
  - simpl in H. unfold bind at 1, emit in H. simpl in H.
    destruct (env_upload env bkt (pre +:+ "/" +:+ n)); [discriminate|].
    destruct (IH _ H) as [E1 E2]. simpl in E1, E2. rewrite E1, E2, <- app_assoc. auto.
Qed.

(* ------------------------------------------------------------------ *)
(** ** The [finally] block and "ensure clean state" *)

(** The [finally] block returns normally in every state and environment.
    When the input file cannot be deleted it stays in place and the
    failure is printed as a warning. *)
Theorem cleanup_logs_failed_deletion (env : Env) (ip od : string) (s : St) :
  exists s', cleanup env ip od s = (s', Ok tt) /\
    (st_fs s !! ip = Some File -> env_rm_fails env ip = true -> in_tree od ip = false ->
     st_fs s' !! ip = Some File /\
     In (EvPrint ("Warning: Failed to delete " +:+ ip +:+ ": "
                  +:+ os_error "1" "Operation not permitted" ip)) (st_trace s')).
Proof.
  destruct (cleanup_total env ip od s) as [s' E]. exists s'. split; [exact E|].
  intros Hf Hr Hnt. unfold cleanup in E.
  rewrite (bind_ok_step _ _ s s true) in E by (unfold path_exists; rewrite Hf; reflexivity).
  cbv beta iota in E.
  set (w := EvPrint ("Warning: Failed to delete " +:+ ip +:+ ": "
                     +:+ os_error "1" "Operation not permitted" ip)) in *.
  set (s1 := mkSt (st_fs s) (st_trace s ++ [w])%list).
  rewrite (bind_ok_step _ _ s s1 tt) in E
    by (unfold try_except, os_remove; rewrite Hf, Hr; reflexivity).
  assert (Hw : In w (st_trace s1)) by (apply in_or_app; right; left; reflexivity).
  unfold bind, path_exists in E. simpl in E.
  destruct (st_fs s !! od) as [[|]|] eqn:Eod.
  - unfold try_except, rmtree in E. simpl in E. rewrite Eod in E.
    injection E as <-. simpl. split; [exact Hf|].
    apply in_or_app. left. exact Hw.
  - unfold try_except, rmtree in E. simpl in E. rewrite Eod in E.
    destruct (env_rm_fails env od).
    + injection E as <-. simpl. split; [exact Hf|]. apply in_or_app. left. exact Hw.
    + injection E as <-. simpl. split; [|exact Hw].
      rewrite map_lookup_filter, Hf. simpl. rewrite Hnt. reflexivity.
  - cbv [ret] in E. injection E as <-. simpl. auto.
Qed.

(** "Ensure clean state" runs outside the inner [try]: when a leftover
    input file cannot be deleted, the handler answers 500 at once; nothing
    is downloaded, FFmpeg is not run, the [finally] block does not run and
    the filesystem is unchanged. *)
Theorem lambda_handler_preclean_failure (env : Env) (ev b : json) (key : string) (s : St) :
  parse_record ev = Ok (b, key) -> allowed (key_ext key) = true ->
  st_fs s !! staging_input key = Some File ->
  env_rm_fails env (staging_input key) = true ->
  lambda_handler env ev s =
    (mkSt (st_fs s)
          (st_trace s ++ [EvPrint ("Error processing video: "
                                   +:+ os_error "1" "Operation not permitted" (staging_input key))])%list,
     Ok (mkResp 500 (BStr ("Error: " +:+ os_error "1" "Operation not permitted"
                                                  (staging_input key))))).
Proof.
  intros Hp Ha Hf Hr. apply lambda_handler_exc.
  rewrite (process_event_allowed env ev b key s Hp Ha).
  apply bind_exc_step. unfold ensure_clean.
  rewrite (bind_ok_step _ _ s s true) by (unfold path_exists; rewrite Hf; reflexivity).
  cbv beta iota. apply bind_exc_step.
  unfold os_remove. rewrite Hf, Hr. reflexivity.
Qed.

Lemma lambda_handler_preclean_failure_witness :
  lambda_handler env_locked ev_upload (mkSt leftover_input []) =
    (mkSt leftover_input
          [EvPrint ("Error processing video: "
                    +:+ os_error "1" "Operation not permitted" (staging_input "videos/clip.MP4"))],
     Ok (mkResp 500 (BStr ("Error: " +:+ os_error "1" "Operation not permitted"
                                                  (staging_input "videos/clip.MP4"))))).
Proof.
  apply (lambda_handler_preclean_failure env_locked ev_upload (JStr "uploads") "videos/clip.MP4"
           (mkSt leftover_input [])).
  - vm_compute. reflexivity.
  - vm_compute. reflexivity.
  - vm_compute. reflexivity.
  - vm_compute. reflexivity.
Defined.

(* ------------------------------------------------------------------ *)
(** ** The trace of external calls *)

Lemma preserves_try_finally {A} P (m : M A) (fin : M unit) :
  preserves P m -> preserves P fin -> preserves P (try_finally m fin).
Proof.
  intros Hm Hf s s' r Hs H.
  apply try_finally_inv in H as (s1 & r1 & H1 & [(u & H2 & _)|(e & H2 & _)]);
    (eapply Hf; [eapply Hm; [exact Hs | exact H1] | exact H2]).
Qed.

Lemma appends_refl (P : event -> Prop) (s : St) : appends P s s.
Proof. exists []. rewrite app_nil_r. auto. Qed.

Lemma appends_keep {A} (P : event -> Prop) (s0 : St) (m : M A) :
  keeps_trace m -> preserves (appends P s0) m.
Proof.
  intros Hk s s' r (extra & E & F) H. exists extra. rewrite (Hk _ _ _ H). auto.
Qed.

Lemma appends_emit (P : event -> Prop) (s0 : St) (ev : event) :
  P ev -> preserves (appends P s0) (emit ev).
Proof.
  intros Hp s s' r (extra & E & F) H. injection H as <- _.
  exists (extra ++ [ev])%list. simpl. rewrite E, app_assoc. split; [reflexivity|].
  apply Forall_app. auto.
Qed.

Lemma keeps_trace_path_exists (p : string) : keeps_trace (path_exists p).
Proof. intros s s' r H. injection H as <- _. reflexivity. Qed.

Lemma keeps_trace_os_remove (env : Env) (p : string) : keeps_trace (os_remove env p).
Proof.
  intros s s' r. unfold os_remove.
  destruct (st_fs s !! p) as [[|]|]; [destruct (env_rm_fails env p)|..];
    intros H; injection H as <- _; reflexivity.
Qed.

Lemma keeps_trace_rmtree (env : Env) (d : string) : keeps_trace (rmtree env d).
Proof.
  intros s s' r. unfold rmtree.
  destruct (st_fs s !! d) as [[|]|]; [|destruct (env_rm_fails env d)|];
    intros H; injection H as <- _; reflexivity.
Qed.

Lemma keeps_trace_mkdir (d : string) : keeps_trace (mkdir d).
Proof.
  intros s s' r. unfold mkdir.
  destruct (st_fs s !! d) as [[|]|]; intros H; injection H as <- _; reflexivity.
Qed.

Lemma keeps_trace_iterdir (d : string) : keeps_trace (iterdir_files d).
Proof.
  intros s s' r. unfold iterdir_files.
  destruct (st_fs s !! d) as [[|]|]; intros H; injection H as <- _; reflexivity.
Qed.

Lemma keeps_trace_set_fs (f : gmap string kind -> gmap string kind) : keeps_trace (set_fs f).
Proof. intros s s' r H. injection H as <- _. reflexivity. Qed.

Section Appends.
Variable P : event -> Prop.
Variable s0 : St.
Variable env : Env.
Hypothesis Hprint : forall m, P (EvPrint m).

Lemma appends_ensure_clean (ip od : string) : preserves (appends P s0) (ensure_clean env ip od).
Proof.
  unfold ensure_clean.
  apply preserves_bind; [apply appends_keep, keeps_trace_path_exists | intros e1].
  apply preserves_bind.
  { apply preserves_if; [apply appends_keep, keeps_trace_os_remove | apply preserves_ret]. }
  intros _.
  apply preserves_bind; [apply appends_keep, keeps_trace_path_exists | intros e2].
  apply preserves_if; [apply appends_keep, keeps_trace_rmtree | apply preserves_ret].
Qed.

Lemma appends_cleanup (ip od : string) : preserves (appends P s0) (cleanup env ip od).
Proof.
  unfold cleanup.
  apply preserves_bind; [apply appends_keep, keeps_trace_path_exists | intros e1].
  apply preserves_bind.
  { apply preserves_if; [|apply preserves_ret].
    apply preserves_try_except; [apply appends_keep, keeps_trace_os_remove|].
    intros e. apply appends_emit, Hprint. }
  intros _.
  apply preserves_bind; [apply appends_keep, keeps_trace_path_exists | intros e2].
  apply preserves_if; [|apply preserves_ret].
  apply preserves_try_except; [apply appends_keep, keeps_trace_rmtree|].
  intros e. apply appends_emit, Hprint.
Qed.

Lemma appends_download (b : json) (key p : string) :
  (forall bs, P (EvDownload bs key p)) -> preserves (appends P s0) (download_file env b key p).
Proof.
  intros Hd. unfold download_file. destruct b as [| |bs| |]; try apply preserves_raise.
  apply preserves_bind; [apply appends_emit, Hd | intros _].
  destruct (env_download env bs key); [|apply appends_keep, keeps_trace_set_fs].
  apply preserves_bind; [|intros _; apply preserves_raise].
  apply preserves_if; [apply appends_keep, keeps_trace_set_fs | apply preserves_ret].
Qed.

Lemma appends_run_ffmpeg (ip od : string) (rs : list (Z * Z)) :
  (forall d, P (EvChmod d)) -> (forall c, P (EvSpawn c)) ->
  preserves (appends P s0) (run_ffmpeg_dash env ip od rs).
Proof.
  intros Hc Hs. unfold run_ffmpeg_dash.
  apply preserves_bind; [apply appends_keep, keeps_trace_mkdir | intros _].
  apply preserves_bind; [apply appends_emit, Hc | intros _].
  apply preserves_bind; [apply preserves_lift | intros cmd].
  apply preserves_bind.
  { unfold subprocess_run.
    apply preserves_bind; [apply appends_emit, Hs | intros _].
    destruct (env_ffmpeg env cmd); [|apply preserves_raise].
    apply preserves_bind; [apply appends_keep, keeps_trace_set_fs | intros _].
    apply preserves_ret. }
  intros res0. apply preserves_if; [apply preserves_raise | apply appends_keep, keeps_trace_iterdir].
Qed.

Lemma appends_upload_all (od bkt pre : string) (files : list string) :
  (forall n, P (upload_event od bkt pre n)) ->
  preserves (appends P s0) (upload_all env od bkt pre files).
Proof.
  intros Hu. induction files as [|n files IH]; [apply preserves_ret|].
  simpl. apply preserves_bind; [apply appends_emit, Hu | intros _].
  destruct (env_upload env bkt (pre +:+ "/" +:+ n)); [apply preserves_raise | exact IH].
Qed.

Lemma appends_transcode (b : json) (key fid : string) :
  (forall bs p, P (EvDownload bs key p)) -> (forall d, P (EvChmod d)) ->
  (forall c, P (EvSpawn c)) ->
  (forall n, P (upload_event (output_dir_of fid) "manifestdatabucket" ("dash/" +:+ fid) n)) ->
  preserves (appends P s0) (transcode_and_upload env b key fid).
Proof.
  intros Hd Hc Hs Hu. unfold transcode_and_upload.
  apply preserves_bind; [apply appends_download; intros; apply Hd | intros _].
  apply preserves_bind; [apply appends_run_ffmpeg; assumption | intros files0].
  apply preserves_bind; [apply appends_keep, keeps_trace_iterdir | intros files].
  apply preserves_bind; [apply appends_upload_all; exact Hu | intros _].
  apply preserves_ret.
Qed.

(** The whole handler, for a property of the events that holds of every
    call it can make for the event's key. *)
Lemma appends_lambda_handler (ev : json) :
  (forall b key, parse_record ev = Ok (b, key) ->
     (forall bs p, P (EvDownload bs key p)) /\ (forall d, P (EvChmod d)) /\
     (forall c, P (EvSpawn c)) /\
     (forall n, P (upload_event (staging_output key) "manifestdatabucket"
                                ("dash/" +:+ path_stem key) n))) ->
  preserves (appends P s0) (lambda_handler env ev).
Proof.
  intros Hev. unfold lambda_handler.
  apply preserves_try_except.
  2:{ intros e. apply preserves_bind; [apply appends_emit, Hprint | intros _]. apply preserves_ret. }
  intros s s' r Hs H. destruct (parse_record ev) as [[b key]|m] eqn:Hp.
  - destruct (Hev b key eq_refl) as (Hd & Hc & Hsp & Hu).
    destruct (allowed (key_ext key)) eqn:Ha.
    + rewrite (process_event_allowed env ev b key s Hp Ha) in H.
      refine (preserves_bind _ _ _ (appends_ensure_clean _ _) _ s s' r Hs H).
      intros _. apply preserves_try_finally; [|apply appends_cleanup].
      apply preserves_try_except; [|intros e; apply preserves_raise].
      apply appends_transcode; assumption.
    + rewrite (process_event_rejected env ev b key s Hp Ha) in H.
      injection H as <- _. exact Hs.
  - rewrite (process_event_parse_error env ev m s Hp) in H. injection H as <- _. exact Hs.
Qed.

End Appends.

(** Every object the handler uploads, in any run and whatever fails, goes
    to [manifestdatabucket] under [dash/{stem}/], and is a file of the
    output staging directory of the event's key. *)
Theorem lambda_handler_uploads_to_destination (env : Env) (ev : json) (s : St) :
  exists extra,
    st_trace (fst (lambda_handler env ev s)) = (st_trace s ++ extra)%list /\
    Forall (fun e => is_upload e = true ->
              exists b key, parse_record ev = Ok (b, key) /\
                            upload_to_destination (path_stem key) e) extra.
Proof.
  destruct (lambda_handler env ev s) as [s' r] eqn:E.
  refine (appends_lambda_handler _ s env _ ev _ s s' r (appends_refl _ s) E).
  - intros m H. discriminate H.
  - intros b key Hp. repeat split.
    + intros bs p H. discriminate H.
    + intros d H. discriminate H.
    + intros c H. discriminate H.
    + intros n _. exists b, key. split; [exact Hp|]. simpl. split; [reflexivity|].
      exists n. split; reflexivity.
Qed.

Lemma download_fails (env : Env) (bs key p msg : string) (s : St) :
  env_download env bs key = Some msg ->
  exists fs', download_file env (JStr bs) key p s =
              (mkSt fs' (st_trace s ++ [EvDownload bs key p])%list, Exc msg).
Proof.
  intros Hd. unfold download_file, bind, emit. simpl. rewrite Hd.
  destruct (env_download_partial env); eexists; reflexivity.
Qed.

Lemma keeps_trace_bind {A B} (m : M A) (k : A -> M B) :
  keeps_trace m -> (forall a, keeps_trace (k a)) -> keeps_trace (bind m k).
Proof.
  intros Hm Hk s s' r H. apply bind_inv in H as [(s1 & a & H1 & H2)|(e & H1 & _)].
  - rewrite (Hk a s1 s' r H2). exact (Hm _ _ _ H1).
  - exact (Hm _ _ _ H1).
Qed.

Lemma keeps_trace_ensure_clean (env : Env) (ip od : string) : keeps_trace (ensure_clean env ip od).
Proof.
  unfold ensure_clean.
  apply keeps_trace_bind; [apply keeps_trace_path_exists | intros e1].
  apply keeps_trace_bind.
  { destruct e1; [apply keeps_trace_os_remove|]. intros s s' r H. injection H as <- _. reflexivity. }
  intros _. apply keeps_trace_bind; [apply keeps_trace_path_exists | intros e2].
  destruct e2; [apply keeps_trace_rmtree|]. intros s s' r H. injection H as <- _. reflexivity.
Qed.

(** Once the pre-clean has returned, a failed download ends the run with
    the 500 response carrying the download's error: after the download
    attempt the handler only prints (the warnings of the [finally] block
    and the final error line); FFmpeg is never spawned and nothing is
    uploaded. *)
Theorem lambda_handler_download_failure (env : Env) (ev : json) (bs key msg : string) (s s1 : St) :
  parse_record ev = Ok (JStr bs, key) -> allowed (key_ext key) = true ->
  ensure_clean env (staging_input key) (staging_output key) s = (s1, Ok tt) ->
  env_download env bs key = Some msg ->
  exists fs' extra,
    lambda_handler env ev s =
      (mkSt fs' (st_trace s ++ EvDownload bs key (staging_input key) :: extra
                 ++ [EvPrint ("Error processing video: " +:+ msg)])%list,
       Ok (mkResp 500 (BStr ("Error: " +:+ msg)))) /\
    Forall is_print extra.
Proof.
  intros Hp Ha E1 Hdl.
  assert (Tr : st_trace s1 = st_trace s) by exact (keeps_trace_ensure_clean env _ _ _ _ _ E1).
  destruct s1 as [fs1 tr1]. cbn [st_trace] in Tr. subst tr1.
  destruct (download_fails env bs key (staging_input key) msg (mkSt fs1 (st_trace s)) Hdl)
    as [fs2 E2].
  assert (Et : transcode_and_upload env (JStr bs) key (path_stem key) (mkSt fs1 (st_trace s)) =
               (mkSt fs2 (st_trace s ++ [EvDownload bs key (staging_input key)])%list, Exc msg)).
  { unfold transcode_and_upload. apply bind_exc_step. exact E2. }
  destruct (cleanup env (staging_input key) (staging_output key)
              (mkSt fs2 (st_trace s ++ [EvDownload bs key (staging_input key)])%list))
    as [s3 r3] eqn:E3.
  destruct (appends_cleanup is_print _ env (fun m => ex_intro _ m eq_refl) _ _ _ _ _
              (appends_refl _ _) E3) as (extra & Etr & Hex).
  destruct (cleanup_total env (staging_input key) (staging_output key)
              (mkSt fs2 (st_trace s ++ [EvDownload bs key (staging_input key)])%list))
    as [s3' E3'].
  rewrite E3 in E3'. injection E3' as <- ->.
  exists (st_fs s3), extra. split; [|exact Hex].
  rewrite (lambda_handler_exc env ev s s3 msg).
  - simpl in Etr. rewrite Etr, <- !app_assoc. reflexivity.
  - rewrite (process_event_allowed env ev (JStr bs) key s Hp Ha).
    rewrite (bind_ok_step _ _ _ _ _ E1).
    unfold try_finally, try_except. rewrite Et. cbv [raise]. rewrite E3. reflexivity.
Qed.

Lemma lambda_handler_download_failure_witness :
  exists fs' extra,
    lambda_handler (mkEnv (fun _ _ => Some "An error occurred (404) when calling the HeadObject operation: Not Found")
                          true (fun _ => SpawnFailed "") (fun _ _ => None)
                          (fun p => String.eqb p "/tmp/clip.mp4")
                          ALLOWED_EXTENSIONS)
                   ev_upload st_empty =
      (mkSt fs' (st_trace st_empty ++ EvDownload "uploads" "videos/clip.MP4" (staging_input "videos/clip.MP4") :: extra
                 ++ [EvPrint ("Error processing video: " +:+ "An error occurred (404) when calling the HeadObject operation: Not Found")])%list,
       Ok (mkResp 500 (BStr ("Error: " +:+ "An error occurred (404) when calling the HeadObject operation: Not Found")))) /\
    Forall is_print extra.
Proof.
  apply (lambda_handler_download_failure
           (mkEnv (fun _ _ => Some "An error occurred (404) when calling the HeadObject operation: Not Found")
                  true (fun _ => SpawnFailed "") (fun _ _ => None)
                  (fun p => String.eqb p "/tmp/clip.mp4")
                  ALLOWED_EXTENSIONS)
           ev_upload "uploads" "videos/clip.MP4"
           "An error occurred (404) when calling the HeadObject operation: Not Found"
           st_empty st_empty).
  - vm_compute. reflexivity.
  - vm_compute. reflexivity.
  - vm_compute. reflexivity.
  - reflexivity.
Defined.

Lemma filter_upload_appends (tr extra : list event) :
  Forall (fun e => is_upload e = false) extra ->
  List.filter is_upload (tr ++ extra) = List.filter is_upload tr.
Proof.
  intros F. rewrite List.filter_app.
  replace (List.filter is_upload extra) with (@nil event); [apply app_nil_r|].
  induction F as [|e extra He F IH]; [reflexivity|]. simpl. rewrite He. exact IH.
Qed.

Lemma filter_upload_events (od bkt pre : string) (files : list string) :
  List.filter is_upload (map (upload_event od bkt pre) files) = map (upload_event od bkt pre) files.
Proof. induction files as [|n files IH]; [reflexivity|]. simpl. rewrite IH. reflexivity. Qed.

Lemma appends_not_upload_filter (s0 s : St) :
  appends (fun e => is_upload e = false) s0 s ->
  List.filter is_upload (st_trace s) = List.filter is_upload (st_trace s0).
Proof. intros (extra & E & F). rewrite E. apply filter_upload_appends, F. Qed.

(** [run_ffmpeg_dash] returns the regular files of the output directory in
    the state it leaves, and makes no upload. *)
Lemma run_ffmpeg_ok_inv (env : Env) (ip od : string) (rs : list (Z * Z)) (s s' : St)
    (files : list string) :
  run_ffmpeg_dash env ip od rs s = (s', Ok files) ->
  files = list_files od (st_fs s') /\ st_fs s' !! od = Some Dir /\
  appends (fun e => is_upload e = false) s s'.
Proof.
  intros H.
  assert (Ha : appends (fun e => is_upload e = false) s s').
  { eapply (appends_run_ffmpeg (fun e => is_upload e = false) s).
    all: first [eassumption | apply appends_refl | intros; reflexivity]. }
  unfold run_ffmpeg_dash in H.
  apply bind_inv in H as [(s1 & u1 & _ & H)|(e & _ & He)]; [|discriminate].
  apply bind_inv in H as [(s2 & u2 & _ & H)|(e & _ & He)]; [|discriminate].
  apply bind_inv in H as [(s3 & cmd & _ & H)|(e & _ & He)]; [|discriminate].
  apply bind_inv in H as [(s4 & res0 & _ & H)|(e & _ & He)]; [|discriminate].
  destruct (negb (res0.1 =? 0)%Z); [discriminate|].
  unfold iterdir_files in H. destruct (st_fs s4 !! od) as [[|]|] eqn:E4; try discriminate.
  injection H as <- <-. auto.
Qed.

(** A transcode that returns uploaded exactly the files its response
    lists, in that order. *)
Lemma transcode_ok_uploads (env : Env) (b : json) (key fid : string) (s1 s2 : St)
    (r : response) :
  transcode_and_upload env b key fid s1 = (s2, Ok r) ->
  exists bs files, b = JStr bs /\
    r = mkResp 200 (BObj "DASH conversion successful"
                         ("https://" +:+ bs +:+ ".s3.amazonaws.com/" +:+ ("dash/" +:+ fid)
                          +:+ "/manifest.mpd")
                         files
                         ("s3://" +:+ bs +:+ "/" +:+ ("dash/" +:+ fid) +:+ "/")) /\
    List.filter is_upload (st_trace s2) =
      (List.filter is_upload (st_trace s1)
       ++ map (upload_event (output_dir_of fid) "manifestdatabucket" ("dash/" +:+ fid)) files)%list.
Proof.
  intros H. unfold transcode_and_upload in H.
  apply bind_inv in H as [(sa & ua & Hd & H)|(e & _ & He)]; [|discriminate].
  assert (Aa : appends (fun e => is_upload e = false) s1 sa).
  { eapply (appends_download (fun e => is_upload e = false) s1).
    all: first [eassumption | apply appends_refl | intros; reflexivity]. }
  destruct b as [| |bs| |]; try discriminate Hd.
  apply bind_inv in H as [(sb & files0 & Hr & H)|(e & _ & He)]; [|discriminate].
  destruct (run_ffmpeg_ok_inv env _ _ _ sa sb files0 Hr) as (Ef & Hdir & Ab).
  apply bind_inv in H as [(sc & files & Hi & H)|(e & _ & He)]; [|discriminate].
  unfold iterdir_files in Hi. rewrite Hdir in Hi. injection Hi as <- <-.
  apply bind_inv in H as [(sd & ud & Hu & H)|(e & _ & He)]; [|discriminate].
  injection H as <- <-.
  destruct (upload_all_ok_inv env _ _ _ _ sb sd ud Hu) as [_ Etr].
  exists bs, files0. split; [reflexivity|]. split; [reflexivity|].
  rewrite Etr, List.filter_app, filter_upload_events, (appends_not_upload_filter _ _ Ab),
          (appends_not_upload_filter _ _ Aa), <- Ef.
  reflexivity.
Qed.

(** The [files] of a 200 response are exactly the objects the run
    uploaded, in upload order: [{output_dir}/{name}] to
    [manifestdatabucket] at [dash/{stem}/{name}], with the content type of
    the name's suffix; the run makes no other upload. *)
Theorem lambda_handler_files_uploaded (env : Env) (ev : json) (s s' : St) (r : response) :
  lambda_handler env ev s = (s', Ok r) -> statusCode r = 200%Z ->
  exists b key url files prefix,
    parse_record ev = Ok (b, key) /\
    body r = BObj "DASH conversion successful" url files prefix /\
    List.filter is_upload (st_trace s') =
      (List.filter is_upload (st_trace s)
       ++ map (upload_event (staging_output key) "manifestdatabucket" ("dash/" +:+ path_stem key))
              files)%list.
Proof.
  intros H H200. unfold lambda_handler, try_except in H.
  destruct (process_event env ev s) as [s1 [a|e]] eqn:E.
  2:{ cbv [bind print emit ret] in H. injection H as _ <-. discriminate H200. }
  injection H as <- <-.
  destruct (parse_record ev) as [[b key]|m] eqn:Hp.
  2:{ rewrite (process_event_parse_error env ev m s Hp) in E. discriminate. }
  destruct (allowed (key_ext key)) eqn:Ha.
  2:{ rewrite (process_event_rejected env ev b key s Hp Ha) in E.
      injection E as _ <-. discriminate H200. }
  rewrite (process_event_allowed env ev b key s Hp Ha) in E.
  apply bind_inv in E as [(sA & uA & EA & E)|(e & _ & He)]; [|discriminate].
  assert (AA : appends (fun e => is_upload e = false) s sA).
  { eapply (appends_ensure_clean (fun e => is_upload e = false) s).
    all: first [eassumption | apply appends_refl | intros; reflexivity]. }
  apply try_finally_inv in E as (sB & rB & EB & [(u & EC & <-)|(e & _ & He)]); [|discriminate].
  apply try_except_inv in EB as [(a' & EB & Ha')|(sX & e & _ & Hr)]; [|cbv [raise] in Hr; discriminate].
  injection Ha' as ->.
  assert (AC : appends (fun e => is_upload e = false) sB s1).
  { eapply (appends_cleanup (fun e => is_upload e = false) sB).
    all: first [eassumption | apply appends_refl | intros; reflexivity]. }
  destruct (transcode_ok_uploads env b key (path_stem key) sA sB a' EB)
    as (bs & files & -> & -> & Etr).
  exists (JStr bs), key; do 3 eexists. split; [first [exact Hp | reflexivity]|]. split; [reflexivity|].
  rewrite (appends_not_upload_filter _ _ AC), Etr, (appends_not_upload_filter _ _ AA).
  reflexivity.
Qed.

Lemma lambda_handler_files_uploaded_witness :
  exists b key url files prefix,
    parse_record ev_upload = Ok (b, key) /\
    BObj "DASH conversion successful"
         "https://uploads.s3.amazonaws.com/dash/clip/manifest.mpd"
         ["manifest.mpd"; "init_0.m4s"] "s3://uploads/dash/clip/" =
      BObj "DASH conversion successful" url files prefix /\
    List.filter is_upload (st_trace (fst (lambda_handler env_ok ev_upload st_empty))) =
      (List.filter is_upload (st_trace st_empty)
       ++ map (upload_event (staging_output key) "manifestdatabucket" ("dash/" +:+ path_stem key))
              files)%list.
Proof.
  apply (lambda_handler_files_uploaded env_ok ev_upload st_empty
           (fst (lambda_handler env_ok ev_upload st_empty))
           (mkResp 200 (BObj "DASH conversion successful"
                         "https://uploads.s3.amazonaws.com/dash/clip/manifest.mpd"
                         ["manifest.mpd"; "init_0.m4s"] "s3://uploads/dash/clip/"))).
  - vm_compute. reflexivity.
  - reflexivity.
Defined.

(** ** What a run leaves alone *)

Lemma keeps_fs_path_exists (p : string) : keeps_fs (path_exists p).
Proof. intros s s' r H. injection H as <- _. reflexivity. Qed.

Lemma keeps_fs_emit (e : event) : keeps_fs (emit e).
Proof. intros s s' r H. injection H as <- _. reflexivity. Qed.

Lemma keeps_fs_iterdir (d : string) : keeps_fs (iterdir_files d).
Proof.
  intros s s' r. unfold iterdir_files.
  destruct (st_fs s !! d) as [[|]|]; intros H; injection H as <- _; reflexivity.
Qed.

Lemma keeps_fs_upload_all (env : Env) (od bkt pre : string) (files : list string) :
  keeps_fs (upload_all env od bkt pre files).
Proof.
  intros s s' r H. destruct (upload_all env od bkt pre files s) as [s1 r1] eqn:E.
  injection H as <- _. revert s s1 r1 E.
  induction files as [|n files IH]; intros s s1 r1 E; simpl in E.
  - injection E as <- _. reflexivity.
  - destruct (env_upload env bkt (pre +:+ "/" +:+ n)) eqn:Eu; cbv [bind emit raise] in E.
    + injection E as <- _. reflexivity.
    + cbn in E. rewrite (IH _ _ _ E). reflexivity.
Qed.

Section Frame.
Variable env : Env.
Variables ip od : string.
Variable s0 : St.

Lemma frame_refl : frame ip od s0 s0.
Proof. intros q _ _. reflexivity. Qed.

Lemma frame_keep {A} (m : M A) : keeps_fs m -> preserves (frame ip od s0) m.
Proof. intros Hk s s' r Hs H q Hq Ht. rewrite (Hk s s' r H). apply Hs; assumption. Qed.

Lemma frame_insert {A} (s s' : St) (p : string) (k : kind) (r : res A) :
  frame ip od s0 s -> (p = ip \/ in_tree od p = true) ->
  st_fs s' = <[p := k]> (st_fs s) -> frame ip od s0 s'.
Proof.
  intros Hs Hp E q Hq Ht. rewrite E, lookup_insert_ne; [apply Hs; assumption|].
  intros <-. destruct Hp as [->|Hp]; congruence.
Qed.

Lemma frame_os_remove : preserves (frame ip od s0) (os_remove env ip).
Proof.
  intros s s' r Hs. unfold os_remove.
  destruct (st_fs s !! ip) as [[|]|]; [destruct (env_rm_fails env ip)|..];
    intros H; injection H as <- _; try exact Hs.
  intros q Hq Ht. cbn [st_fs]. rewrite lookup_delete_ne by congruence. apply Hs; assumption.
Qed.

Lemma frame_rmtree : preserves (frame ip od s0) (rmtree env od).
Proof.
  intros s s' r Hs. unfold rmtree.
  destruct (st_fs s !! od) as [[|]|]; [|destruct (env_rm_fails env od)|];
    intros H; injection H as <- _; try exact Hs.
  intros q Hq Ht. cbn [st_fs]. rewrite map_lookup_filter, (Hs q Hq Ht).
  destruct (st_fs s0 !! q) as [k|]; [|reflexivity]. cbn.
  rewrite option_guard_True; [reflexivity|]. cbn. rewrite Ht. reflexivity.
Qed.

Lemma frame_mkdir : preserves (frame ip od s0) (mkdir od).
Proof.
  intros s s' r Hs. unfold mkdir.
  destruct (st_fs s !! od) as [[|]|] eqn:E; intros H; injection H as <- _; try exact Hs.
  eapply (frame_insert s _ od Dir (Ok tt)); [exact Hs | right; apply in_tree_self | reflexivity].
Qed.

Lemma frame_download (b : json) (key : string) :
  preserves (frame ip od s0) (download_file env b key ip).
Proof.
  unfold download_file. destruct b as [| |bs| |]; try apply preserves_raise.
  apply preserves_bind; [apply frame_keep, keeps_fs_emit | intros _].
  assert (Hset : preserves (frame ip od s0) (set_fs (insert ip File))).
  { intros s s' r Hs H. injection H as <- _.
    eapply (frame_insert s _ ip File (Ok tt)); [exact Hs | left; reflexivity | reflexivity]. }
  destruct (env_download env bs key); [|exact Hset].
  apply preserves_bind; [apply preserves_if; [exact Hset | apply preserves_ret]|].
  intros _. apply preserves_raise.
Qed.

Lemma frame_produce (produced : list string) :
  preserves (frame ip od s0)
    (set_fs (fun fs => foldl (fun fs n => <[od +:+ "/" +:+ n := File]> fs) fs produced)).
Proof.
  intros s s' r Hs H. injection H as <- _.
  assert (G : forall fs tr, frame ip od s0 (mkSt fs tr) ->
     frame ip od s0 (mkSt (foldl (fun fs n => <[od +:+ "/" +:+ n := File]> fs) fs produced) tr)).
  { induction produced as [|n produced IH]; intros fs tr Hf; [exact Hf|].
    cbn [foldl]. apply IH.
    eapply (frame_insert (mkSt fs tr) _ _ File (Ok tt));
      [exact Hf | right; apply in_tree_child | reflexivity]. }
  apply G. destruct s; exact Hs.
Qed.

Lemma frame_run_ffmpeg (rs : list (Z * Z)) :
  preserves (frame ip od s0) (run_ffmpeg_dash env ip od rs).
Proof.
  unfold run_ffmpeg_dash.
  apply preserves_bind; [apply frame_mkdir | intros _].
  apply preserves_bind; [apply frame_keep, keeps_fs_emit | intros _].
  apply preserves_bind; [apply preserves_lift | intros cmd].
  apply preserves_bind.
  { unfold subprocess_run.
    apply preserves_bind; [apply frame_keep, keeps_fs_emit | intros _].
    destruct (env_ffmpeg env cmd); [|apply preserves_raise].
    apply preserves_bind; [apply frame_produce | intros _]. apply preserves_ret. }
  intros res0. apply preserves_if; [apply preserves_raise | apply frame_keep, keeps_fs_iterdir].
Qed.

Lemma frame_transcode (b : json) (key fid : string) :
  input_path_of fid (py_lower (path_suffix key)) = ip -> output_dir_of fid = od ->
  preserves (frame ip od s0) (transcode_and_upload env b key fid).
Proof.
  intros Hi Ho. unfold transcode_and_upload. rewrite Hi, Ho.
  apply preserves_bind; [apply frame_download | intros _].
  apply preserves_bind; [apply frame_run_ffmpeg | intros files0].
  apply preserves_bind; [apply frame_keep, keeps_fs_iterdir | intros files].
  apply preserves_bind; [apply frame_keep, keeps_fs_upload_all | intros _].
  apply preserves_ret.
Qed.

Lemma frame_ensure_clean : preserves (frame ip od s0) (ensure_clean env ip od).
Proof.
  unfold ensure_clean.
  apply preserves_bind; [apply frame_keep, keeps_fs_path_exists | intros e1].
  apply preserves_bind; [apply preserves_if; [apply frame_os_remove | apply preserves_ret]|intros _].
  apply preserves_bind; [apply frame_keep, keeps_fs_path_exists | intros e2].
  apply preserves_if; [apply frame_rmtree | apply preserves_ret].
Qed.

Lemma frame_cleanup : preserves (frame ip od s0) (cleanup env ip od).
Proof.
  unfold cleanup.
  apply preserves_bind; [apply frame_keep, keeps_fs_path_exists | intros e1].
  apply preserves_bind.
  { apply preserves_if; [|apply preserves_ret].
    apply preserves_try_except; [apply frame_os_remove | intros e; apply frame_keep, keeps_fs_emit]. }
  intros _.
  apply preserves_bind; [apply frame_keep, keeps_fs_path_exists | intros e2].
  apply preserves_if; [|apply preserves_ret].
  apply preserves_try_except; [apply frame_rmtree | intros e; apply frame_keep, keeps_fs_emit].
Qed.

End Frame.

(** Whatever happens in a run, the handler changes no path of the
    filesystem except the two staging paths of the event's key: the input
    file [/tmp/{stem}{ext}] and the tree of [/tmp/{stem}_dash_output]. *)
Theorem lambda_handler_frame (env : Env) (ev b : json) (key : string) (s : St) (q : string) :
  parse_record ev = Ok (b, key) ->
  q <> staging_input key -> in_tree (staging_output key) q = false ->
  st_fs (fst (lambda_handler env ev s)) !! q = st_fs s !! q.
Proof.
  intros Hp Hq Ht.
  destruct (process_event env ev s) as [s1 r1] eqn:E.
  rewrite (lambda_handler_fs env ev s s1 r1 E).
  enough (F : frame (staging_input key) (staging_output key) s s1) by (apply F; assumption).
  destruct (allowed (key_ext key)) eqn:Ha.
  - rewrite (process_event_allowed env ev b key s Hp Ha) in E.
    refine (preserves_bind _ _ _ (frame_ensure_clean env _ _ s) _ s s1 r1 (frame_refl _ _ s) E).
    intros _. apply preserves_try_finally; [|apply frame_cleanup].
    apply preserves_try_except; [|intros e; apply preserves_raise].
    apply frame_transcode; reflexivity.
  - rewrite (process_event_rejected env ev b key s Hp Ha) in E.
    injection E as <- _. apply frame_refl.
Qed.

Lemma lambda_handler_frame_witness :
  parse_record ev_upload = Ok (JStr "uploads", "videos/clip.MP4") /\
  "/tmp/keep.txt" <> staging_input "videos/clip.MP4" /\
  in_tree (staging_output "videos/clip.MP4") "/tmp/keep.txt" = false /\
  st_fs (fst (lambda_handler env_ok ev_upload (mkSt {[ "/tmp/keep.txt" := File ]} [])))
    !! "/tmp/keep.txt" = st_fs (mkSt {[ "/tmp/keep.txt" := File ]} []) !! "/tmp/keep.txt".
Proof.
  assert (Hp : parse_record ev_upload = Ok (JStr "uploads", "videos/clip.MP4"))
    by (vm_compute; reflexivity).
  assert (Hq : "/tmp/keep.txt" <> staging_input "videos/clip.MP4")
    by (intros H; vm_compute in H; discriminate H).
  assert (Ht : in_tree (staging_output "videos/clip.MP4") "/tmp/keep.txt" = false)
    by (vm_compute; reflexivity).
  split; [exact Hp|]. split; [exact Hq|]. split; [exact Ht|].
  exact (lambda_handler_frame env_ok ev_upload (JStr "uploads") "videos/clip.MP4"
           (mkSt {[ "/tmp/keep.txt" := File ]} []) "/tmp/keep.txt" Hp Hq Ht).
Defined.

(** ** What [run_ffmpeg_dash] returns *)

Lemma substring_full (s : string) : substring 0 (String.length s) s = s.
Proof. induction s as [|c s IH]; [reflexivity|]. simpl. rewrite IH. reflexivity. Qed.

Lemma substring_after (a b : string) (m : nat) :
  substring (String.length a) m (a +:+ b) = substring 0 m b.
Proof. induction a as [|c a IH]; [reflexivity|]. exact IH. Qed.

Lemma prefix_inv (s p : string) : String.prefix s p = true -> exists r, p = s +:+ r.
Proof.
  revert p. induction s as [|c s IH]; intros p H; [exists p; reflexivity|].
  destruct p as [|c' p]; [discriminate|]. simpl in H.
  destruct (ascii_dec c c') as [<-|]; [|discriminate].
  destruct (IH p H) as [r ->]. exists r. reflexivity.
Qed.

Lemma append_inj_l (d a b : string) : d +:+ a = d +:+ b -> a = b.
Proof. induction d as [|c d IH]; [auto|]. intros H. injection H. exact IH. Qed.

Lemma child_name_child (d n : string) :
  n <> "" -> has_slash n = false -> child_name d (d +:+ "/" +:+ n) = Some n.
Proof.
  intros Hn Hs. unfold child_name.
  replace (d +:+ "/" +:+ n) with ((d +:+ "/") +:+ n) by apply append_assoc_str.
  generalize (d +:+ "/"). intros pre.
  rewrite prefix_append, length_append.
  replace (String.length pre + String.length n - String.length pre)
    with (String.length n) by lia.
  rewrite substring_after, substring_full, Hs, orb_false_r.
  destruct (String.eqb n "") eqn:E; [apply String.eqb_eq in E; contradiction|reflexivity].
Qed.

Lemma child_name_inv (d p n : string) : child_name d p = Some n -> p = d +:+ "/" +:+ n.
Proof.
  unfold child_name. destruct (String.prefix (d +:+ "/") p) eqn:Hp; [|discriminate].
  destruct (prefix_inv _ _ Hp) as [r ->].
  rewrite <- append_assoc_str. generalize (d +:+ "/"). intros pre.
  rewrite length_append.
  replace (String.length pre + String.length r - String.length pre)
    with (String.length r) by lia.
  rewrite substring_after, substring_full.
  destruct (String.eqb r "" || has_slash r); [discriminate|].
  intros H. injection H as <-. reflexivity.
Qed.

Lemma list_files_spec (d : string) (fs : gmap string kind) (n : string) :
  In n (list_files d fs) <-> exists p, fs !! p = Some File /\ child_name d p = Some n.
Proof.
  unfold list_files. rewrite <- list_elem_of_In, list_elem_of_omap. split.
  - intros [[p [|]] [Hin Hf]]; [|discriminate]. apply elem_of_map_to_list in Hin. eauto.
  - intros (p & Hp & Hc). exists (p, File). split; [apply elem_of_map_to_list; exact Hp | exact Hc].
Qed.

Lemma list_files_nodup (d : string) (fs : gmap string kind) : NoDup (list_files d fs).
Proof.
  unfold list_files. pose proof (NoDup_fst_map_to_list fs) as H.
  induction (map_to_list fs) as [|[p k] l IH]; [constructor|].
  cbn in H. apply NoDup_cons in H as [Hnin H]. cbn.
  destruct (match k with File => child_name d p | Dir => None end) as [n|] eqn:Ef;
    [|apply IH, H].
  constructor; [|apply IH, H].
  rewrite list_elem_of_In, <- list_elem_of_In, list_elem_of_omap.
  intros [[p' k'] [Hin Hf]]. apply Hnin.
  destruct k; [|discriminate]. destruct k'; [|discriminate].
  rewrite (child_name_inv _ _ _ Ef), <- (child_name_inv _ _ _ Hf).
  apply list_elem_of_fmap_2 with (f := fst) in Hin. exact Hin.
Qed.

Lemma produce_other (od : string) (l : list string) (fs : gmap string kind) (p : string) :
  (forall n, In n l -> p <> od +:+ "/" +:+ n) ->
  foldl (fun fs n => <[od +:+ "/" +:+ n := File]> fs) fs l !! p = fs !! p.
Proof.
  revert fs. induction l as [|n l IH]; intros fs H; [reflexivity|]. cbn [foldl].
  rewrite IH by (intros m Hm; apply H; right; exact Hm).
  apply lookup_insert_ne. intros E. apply (H n); [left; reflexivity | symmetry; exact E].
Qed.

Lemma produce_written (od : string) (l : list string) (fs : gmap string kind) (n : string) :
  In n l -> foldl (fun fs n => <[od +:+ "/" +:+ n := File]> fs) fs l !! (od +:+ "/" +:+ n) = Some File.
Proof.
  revert fs. induction l as [|m l IH]; intros fs H; [contradiction|]. cbn [foldl].
  destruct (in_dec string_dec n l) as [Hl|Hl]; [apply IH, Hl|].
  destruct H as [<-|H]; [|contradiction].
  rewrite produce_other; [apply lookup_insert_eq|].
  intros m' Hm E. apply append_inj_l, (append_inj_l "/") in E. subst. contradiction.
Qed.

(** On an output directory that is not there yet, a run of FFmpeg that
    exits with 0 makes [run_ffmpeg_dash] return the names of the files
    FFmpeg wrote into it: each exactly once, and nothing else. *)
Theorem run_ffmpeg_dash_returns_produced (env : Env) (ip od : string) (rs : list (Z * Z))
    (cmd : list string) (err : string) (produced : list string) (s : St) :
  make_command ip od rs = Ok cmd ->
  env_ffmpeg env cmd = Spawned 0 err produced ->
  (forall q, in_tree od q = true -> st_fs s !! q = None) ->
  Forall (fun n => n <> "" /\ has_slash n = false) produced ->
  exists s' files, run_ffmpeg_dash env ip od rs s = (s', Ok files) /\
    (forall n, In n files <-> In n produced) /\ NoDup files.
Proof.
  intros Hc Hf Hfresh Hn.
  set (fs1 := <[od := Dir]> (st_fs s)).
  set (fs2 := foldl (fun fs n => <[od +:+ "/" +:+ n := File]> fs) fs1 produced).
  assert (Hod : fs2 !! od = Some Dir).
  { unfold fs2. rewrite produce_other; [apply lookup_insert_eq|].
    intros n _ E. apply (child_ne_dir od n). symmetry. exact E. }
  exists (mkSt fs2 (st_trace s ++ [EvChmod od] ++ [EvSpawn cmd])%list), (list_files od fs2).
  split.
  { unfold run_ffmpeg_dash.
    rewrite (bind_ok_step _ _ s (mkSt fs1 (st_trace s)) tt)
      by (unfold mkdir; rewrite (Hfresh od (in_tree_self od)); reflexivity).
    rewrite (bind_ok_step _ _ _ (mkSt fs1 (st_trace s ++ [EvChmod od])%list) tt) by reflexivity.
    rewrite (bind_ok_step _ _ _ _ cmd) by (cbv [lift]; rewrite Hc; reflexivity).
    rewrite (bind_ok_step _ _ _ (mkSt fs2 (st_trace s ++ [EvChmod od] ++ [EvSpawn cmd])%list) (0%Z, err)).
    2:{ unfold subprocess_run, bind, emit. cbn. rewrite Hf. cbn.
        rewrite <- app_assoc. reflexivity. }
    cbn. unfold iterdir_files. cbn [st_fs]. rewrite Hod. reflexivity. }
  split; [|apply list_files_nodup].
  intros n. rewrite list_files_spec. split.
  - intros (p & Hp & Hcn). rewrite (child_name_inv _ _ _ Hcn) in Hp.
    destruct (in_dec string_dec n produced) as [Hin|Hin]; [exact Hin|].
    exfalso. unfold fs2 in Hp. rewrite produce_other in Hp.
    + unfold fs1 in Hp. rewrite lookup_insert_ne in Hp by (intros E; apply (child_ne_dir od n); symmetry; exact E).
      rewrite Hfresh in Hp by apply in_tree_child. discriminate.
    + intros m Hm E. apply append_inj_l, (append_inj_l "/") in E. subst. contradiction.
  - intros Hin. exists (od +:+ "/" +:+ n). split; [apply produce_written, Hin|].
    rewrite Forall_forall in Hn. destruct (Hn n (proj2 (list_elem_of_In _ _) Hin)) as [Hne Hs].
    apply child_name_child; assumption.
Qed.

Lemma run_ffmpeg_dash_returns_produced_witness :
  exists s' files,
    run_ffmpeg_dash env_ok "/tmp/clip.mp4" "/tmp/clip_dash_output" RESOLUTIONS st_empty = (s', Ok files) /\
    (forall n, In n files <-> In n ["manifest.mpd"; "init_0.m4s"]) /\ NoDup files.
Proof.
  apply (run_ffmpeg_dash_returns_produced env_ok "/tmp/clip.mp4" "/tmp/clip_dash_output"
           RESOLUTIONS
           (match make_command "/tmp/clip.mp4" "/tmp/clip_dash_output" RESOLUTIONS with
            | Ok c => c | Exc _ => [] end)
           "" ["manifest.mpd"; "init_0.m4s"] st_empty).
  - vm_compute. reflexivity.
  - reflexivity.
  - intros q _. reflexivity.
  - repeat constructor; discriminate.
Defined.

(** ** Keys and staging names *)

Lemma substring_split (s : string) (i : nat) :
  (i <= String.length s)%nat ->
  substring 0 i s +:+ substring i (String.length s - i) s = s.
Proof.
  revert i. induction s as [|c s IH]; intros i Hi.
  - destruct i; reflexivity.
  - destruct i as [|i].
    + change (substring 0 (String.length (String c s) - 0) (String c s) = String c s).
      rewrite Nat.sub_0_r. apply substring_full.
    + cbn in Hi.
      change (String c (substring 0 i s +:+ substring i (String.length s - i) s) = String c s).
      rewrite IH by lia. reflexivity.
Qed.

Lemma stem_suffix_split (key : string) : path_stem key +:+ path_suffix key = path_name key.
Proof.
  unfold path_stem, path_suffix.
  destruct (rfind_dot (path_name key)) as [i|]; [|apply append_empty_r].
  destruct ((0 <? i)%nat && (i <? String.length (path_name key) - 1)%nat) eqn:E;
    [|apply append_empty_r].
  apply andb_true_iff in E as [_ E]. apply Nat.ltb_lt in E.
  apply substring_split. lia.
Qed.

(** [PurePath] splits the last component of the key into its stem and
    its suffix: [stem + suffix == name]. *)
Theorem path_stem_suffix (key : string) : path_stem key +:+ path_suffix key = path_name key.
Proof. apply stem_suffix_split. Qed.

(** A key whose extension is already in lower case is staged under the
    name of its last component: [/tmp/{name}]. *)
Theorem staging_input_is_name (key : string) :
  py_lower (path_suffix key) = path_suffix key ->
  staging_input key = "/tmp/" +:+ path_name key.
Proof.
  intros Hl. unfold staging_input, input_path_of, key_ext. rewrite Hl, stem_suffix_split.
  reflexivity.
Qed.

Lemma staging_input_is_name_witness :
  py_lower (path_suffix "videos/2024/clip.final.mp4") = path_suffix "videos/2024/clip.final.mp4" /\
  staging_input "videos/2024/clip.final.mp4" = "/tmp/" +:+ path_name "videos/2024/clip.final.mp4".
Proof.
  assert (H : py_lower (path_suffix "videos/2024/clip.final.mp4") =
              path_suffix "videos/2024/clip.final.mp4") by (vm_compute; reflexivity).
  split; [exact H | exact (staging_input_is_name "videos/2024/clip.final.mp4" H)].
Defined.

(** For every key the handler accepts, the staged input file is neither
    the output directory nor inside it, so the two deletions of
    lines 131-135 and 175-187 never act on each other's path. *)
Theorem staging_paths_disjoint (key : string) :
  allowed (key_ext key) = true ->
  staging_input key <> staging_output key /\
  in_tree (staging_output key) (staging_input key) = false.
Proof. intros Ha. apply staging_distinct, Ha. Qed.

Lemma staging_paths_disjoint_witness :
  allowed (key_ext "uploads/My Movie.MOV") = true /\
  staging_input "uploads/My Movie.MOV" <> staging_output "uploads/My Movie.MOV" /\
  in_tree (staging_output "uploads/My Movie.MOV") (staging_input "uploads/My Movie.MOV") = false.
Proof.
  assert (H : allowed (key_ext "uploads/My Movie.MOV") = true) by (vm_compute; reflexivity).
  split; [exact H | exact (staging_paths_disjoint "uploads/My Movie.MOV" H)].
Defined.

(** [unquote_plus] returns a key that holds no [+] and no [%] as it is. *)
Theorem unquote_plus_no_escapes (s : string) :
  no_escapes s = true -> unquote_plus_str s = s.
Proof.
  unfold unquote_plus_str.
  induction s as [|c s IH]; intros H; [reflexivity|].
  cbn [no_escapes list_ascii_of_string forallb] in H. unfold no_escapes in IH.
  apply andb_true_iff in H as [Hc Hs]. apply andb_true_iff in Hc as [Hp Hq].
  apply negb_true_iff in Hp, Hq.
  cbn [plus_to_space]. rewrite Hp. cbn [unquote]. rewrite Hq, IH by exact Hs. reflexivity.
Qed.

Lemma unquote_plus_no_escapes_witness :
  no_escapes "videos/clip_01.mp4" = true /\
  unquote_plus_str "videos/clip_01.mp4" = "videos/clip_01.mp4".
Proof.
  assert (H : no_escapes "videos/clip_01.mp4" = true) by (vm_compute; reflexivity).
  split; [exact H | exact (unquote_plus_no_escapes _ H)].
Defined.
